(** * OpenVINO anomaly task: metadata resolution, PTQ orchestration, deployment

    A shallow embedding of [otx/algorithms/anomaly/tasks/openvino.py]
    ([OTXNNCFAnomalyDataloader] and [OpenVINOTask]).

    Python objects that are mutated in place (the [ModelEntity] artifacts)
    live in an object store addressed by references, so that
    [task_environment.model] and [output_model] may alias.  Every method is a
    state transformer that also returns the state on the exceptional path: a
    Python exception does not roll back the mutations made before it.

    The frameworks the task delegates to (json, numpy, OpenVINO, NNCF,
    anomalib, the file system) are collected in one record of external
    collaborators, [Externals]; everything else is transcribed from the
    source.  Python floats are binary64 ([PrimFloat]); float32 array
    elements are kept as bit patterns.  A zip archive is the ordered list of
    its members.  Temporary directories are scoped and leave no state behind,
    and the [logger] calls have no effect on the state: neither is modelled. *)

From Stdlib Require Import ZArith NArith Strings.Byte Ascii String List Sorted Floats Lia.
From stdpp Require Import base option list gmap strings.

#[local] Set Warnings "-register-all".

Local Open Scope string_scope.
Local Open Scope Z_scope.

(** ** Exceptions and results *)

Inductive exn : Type :=
| KeyError (key : string)
| IndexError
| TypeError
| AttributeError
| OverflowError
| ValueError (msg : string)
| RuntimeError (msg : string)
| JSONDecodeError
| UnicodeDecodeError
| AssertionError
| FileNotFoundError (path : string)
| Exception_ (msg : string)
(* ValueError, TypeError or OverflowError raised inside a numpy conversion;
   never a KeyError and never a JSONDecodeError. *)
| NumpyError
(* failure inside NNCF's quantization call *)
| QuantizationError.

Inductive result (A : Type) : Type :=
| Ok (a : A)
| Raise (e : exn).
Arguments Ok {A} a.
Arguments Raise {A} e.

Definition is_ok {A} (r : result A) : bool :=
  match r with Ok _ => true | Raise _ => false end.

Definition rbind {A B} (r : result A) (k : A -> result B) : result B :=
  match r with
  | Ok a => k a
  | Raise e => Raise e
  end.

Notation "'let?' x ':=' c 'in' k" := (rbind c (fun x => k))
  (at level 10, x pattern, c at level 100, k at level 200).

(** ** Python values *)

Abbreviation bytes := (list byte).

(** A numpy [float32] element, kept as the 32-bit pattern it was read from. *)
Inductive float32 : Type := Float32 (bits : N).

Definition float32_bits (x : float32) : N := match x with Float32 b => b end.

(** The values json.loads produces and json.dumps accepts; a transform
    description ([_to_dict()]) is one of them, tuples being lists. *)
Inductive json : Type :=
| JNull
| JBool (b : bool)
| JInt (n : Z)
| JFloat (x : float)
| JStr (s : string)
| JList (l : list json)
| JDict (d : list (string * json)).      (* dict, in insertion order *)

(** The values a metadata mapping holds: JSON-like values and numpy arrays. *)
Inductive pyval : Type :=
| PJson (j : json)
| PArray (a : list float32).             (* 1-D np.ndarray of dtype float32 *)

(** A Python scalar number, as opposed to a container or an ndarray. *)
Definition is_scalar (v : pyval) : bool :=
  match v with
  | PJson (JBool _) | PJson (JInt _) | PJson (JFloat _) => true
  | _ => false
  end.

Definition is_ndarray (v : pyval) : bool :=
  match v with
  | PArray _ => true
  | PJson _ => false
  end.

(** *** Dictionaries with insertion order *)

Section Dict.
Context {K V : Type} `{EqDecision K}.

Fixpoint dict_get (k : K) (d : list (K * V)) : option V :=
  match d with
  | [] => None
  | (k', v) :: d' => if decide (k = k') then Some v else dict_get k d'
  end.

(** [d[k] = v]: overwrite in place when the key exists, append otherwise. *)
Fixpoint dict_set (k : K) (v : V) (d : list (K * V)) : list (K * V) :=
  match d with
  | [] => [(k, v)]
  | (k', v') :: d' =>
      if decide (k = k') then (k, v) :: d' else (k', v') :: dict_set k v d'
  end.

Fixpoint dict_del (k : K) (d : list (K * V)) : list (K * V) :=
  match d with
  | [] => []
  | (k', v') :: d' =>
      if decide (k = k') then d' else (k', v') :: dict_del k d'
  end.
End Dict.

(** [d[k]] on a Python dict with string keys. *)
Definition dict_item {V} (k : string) (d : list (string * V)) : result V :=
  match dict_get k d with
  | Some v => Ok v
  | None => Raise (KeyError k)
  end.

(** ** Strings *)

Definition lower_ascii (c : ascii) : ascii :=
  let n := N_of_ascii c in
  if ((65 <=? n) && (n <=? 90))%N then ascii_of_N (n + 32) else c.

Definition upper_ascii (c : ascii) : ascii :=
  let n := N_of_ascii c in
  if ((97 <=? n) && (n <=? 122))%N then ascii_of_N (n - 32) else c.

Fixpoint str_map (f : ascii -> ascii) (s : string) : string :=
  match s with
  | EmptyString => EmptyString
  | String c s' => String (f c) (str_map f s')
  end.

Definition str_lower : string -> string := str_map lower_ascii.
Definition str_upper : string -> string := str_map upper_ascii.

(** [s.split(sep)] for a one-character separator.  The accumulator holds the
    characters of the current field, reversed. *)
Fixpoint str_split_aux (sep : ascii) (acc : string) (s : string) : list string :=
  match s with
  | EmptyString => [String.rev acc]
  | String c s' =>
      if decide (c = sep) then String.rev acc :: str_split_aux sep EmptyString s'
      else str_split_aux sep (String c acc) s'
  end.

Definition str_split (sep : ascii) (s : string) : list string :=
  str_split_aux sep EmptyString s.

(** [sep.join(l)] *)
Fixpoint str_join (sep : string) (l : list string) : string :=
  match l with
  | [] => ""
  | [s] => s
  | s :: l' => s ++ sep ++ str_join sep l'
  end.

(** [os.path.join(a, b)] for a relative [b] (POSIX). *)
Definition os_path_join (a b : string) : string :=
  if decide (a = "") then b else a ++ "/" ++ b.

(** [os.path.normpath] restricted to what archive member names need: empty
    and ["."] components are dropped. *)
Definition os_path_normpath (p : string) : string :=
  str_join "/" (filter (fun c => c ≠ "" ∧ c ≠ ".") (str_split "/" p)).

(** ** numpy *)

(** Four bytes as one 32-bit pattern, in the little-endian order of the
    platforms OpenVINO runs on. *)
Definition float32_of_le (b0 b1 b2 b3 : byte) : float32 :=
  Float32 (Byte.to_N b0 + 256 * (Byte.to_N b1 + 256 * (Byte.to_N b2 + 256 * Byte.to_N b3)))%N.

(** [np.frombuffer(buf, dtype=np.float32)]: a 1-D array with one element per
    four bytes; a buffer whose size is not a multiple of four is refused
    ([None], numpy's ValueError). *)
Fixpoint np_frombuffer_float32 (buf : bytes) : option (list float32) :=
  match buf with
  | [] => Some []
  | b0 :: b1 :: b2 :: b3 :: rest =>
      match np_frombuffer_float32 rest with
      | Some a => Some (float32_of_le b0 b1 b2 b3 :: a)
      | None => None
      end
  | _ => None
  end.

(** Shape-(n,) against shape-(m,) broadcasting of an elementwise operation. *)
Definition np_broadcast (op : float32 -> float32 -> float32)
    (a b : list float32) : option (list float32) :=
  match a, b with
  | [x], _ => Some (map (op x) b)
  | _, [y] => Some (map (fun x => op x y) a)
  | _, _ =>
      if decide (length a = length b) then Some (zip_with op a b) else None
  end.

(** ** Entities of the OTX API

    Modelled from the spec: the entity classes ([LabelEntity],
    [DatasetItemEntity], [DatasetEntity], [ModelEntity], the enumerations)
    are declared outside the shown sources; they are records of the
    attributes [openvino.py] reads and writes, and the artifact is the
    key-to-bytes store of the spec ([get_data], [set_data]). *)

Record LabelEntity := { label_name : string; is_anomalous : bool }.

Record DatasetItemEntity := {
  item_media : nat;                        (* identifies the image *)
  get_shapes_labels : list LabelEntity;    (* item.get_shapes_labels() *)
}.

Inductive Subset := TRAINING | VALIDATION | TESTING | UNLABELED.

Record DatasetEntity := {
  items : list DatasetItemEntity;
  purpose : Subset;
}.

Inductive TaskType :=
| ANOMALY_CLASSIFICATION
| ANOMALY_DETECTION
| ANOMALY_SEGMENTATION
| OTHER_TASK (name : string).

(** [str(task_type)] is the member's name. *)
Definition TaskType_str (t : TaskType) : string :=
  match t with
  | ANOMALY_CLASSIFICATION => "ANOMALY_CLASSIFICATION"
  | ANOMALY_DETECTION => "ANOMALY_DETECTION"
  | ANOMALY_SEGMENTATION => "ANOMALY_SEGMENTATION"
  | OTHER_TASK name => name
  end.

Inductive OptimizationType := POT | NNCF.

#[global] Instance OptimizationType_eq_dec : EqDecision OptimizationType.
Proof. solve_decision. Defined.
Inductive ModelFormat := OPENVINO | BASE_FRAMEWORK | ONNX.
Inductive ModelOptimizationType := MOT_NONE | MOT_NNCF | MOT_POT | MOT_MO | MOT_ONNX.
Inductive OptimizationMethod := FILTER_PRUNING | QUANTIZATION.
Inductive ModelPrecision := INT4 | INT8 | FP16 | FP32.
Inductive QuantizationPreset := PERFORMANCE | MIXED.

(** The members of a zip archive in the order they were written. *)
Definition ZipArchive := list (string * bytes).

Record ModelEntity := {
  model_adapters : gmap string bytes;
  model_format : ModelFormat;
  optimization_type : ModelOptimizationType;
  optimization_methods : list OptimizationMethod;
  precision : list ModelPrecision;
  exportable_code : option ZipArchive;
}.

Definition blank_model : ModelEntity :=
  {| model_adapters := ∅; model_format := BASE_FRAMEWORK;
     optimization_type := MOT_NONE; optimization_methods := [];
     precision := []; exportable_code := None |}.

Definition with_data (f : gmap string bytes -> gmap string bytes) (m : ModelEntity) : ModelEntity :=
  {| model_adapters := f (model_adapters m); model_format := model_format m;
     optimization_type := optimization_type m;
     optimization_methods := optimization_methods m;
     precision := precision m; exportable_code := exportable_code m |}.

(** [model.get_data(key)]: a missing key is a [KeyError]. *)
Definition get_data (m : ModelEntity) (key : string) : result bytes :=
  match model_adapters m !! key with
  | Some b => Ok b
  | None => Raise (KeyError key)
  end.

(** [model.set_data(key, data)] *)
Definition set_data (key : string) (data : bytes) (m : ModelEntity) : ModelEntity :=
  with_data (fun d => <[key := data]> d) m.

(** An OpenVINO IR: graph definition and weights. *)
Record IRModel := { ir_xml : bytes; ir_bin : bytes }.

(** The model-API wrapper built by [AnomalyDetection.create_model]. *)
Record AnomalyDetection := { ad_model : bytes; ad_weights : bytes }.

Record HyperParameters := {
  stat_subset_size : Z;          (* pot_parameters.stat_subset_size *)
  pot_preset : QuantizationPreset;   (* pot_parameters.preset *)
}.

(** The part of the anomalib config that the task reads. *)
Record Config := {
  transform_config_train : json;   (* config.dataset.transform_config.train *)
  image_size : list Z;              (* config.dataset.image_size *)
}.

Record TaskEnvironment := {
  template_task_type : TaskType;    (* model_template.task_type *)
  template_name : string;           (* model_template.name *)
  model_template_path : string;     (* model_template.model_template_path *)
  get_labels : list LabelEntity;
  label_schema : list LabelEntity;
  get_hyper_parameters : HyperParameters;
}.

(** The quantization arguments handed to [nncf.quantize]: the keywords of the
    optional config file, then [subset_size] and [preset]. *)
Record QuantizationConfig := {
  file_arguments : list (string * json);
  subset_size : Z;
  preset : QuantizationPreset;
}.

Inductive OptimizationParameters := OptimizationParameters_default.

(** The [parameters] dict that [deploy] serialises into model/config.json. *)
Record DeployParameters := {
  type_of_model : string;
  converter_type : string;
  model_parameters : list (string * pyval);
}.

Record OTXNNCFAnomalyDataloader := {
  dataset : DatasetEntity;
  model : option AnomalyDetection;
  shuffler : option (list nat);
}.

(** ** External collaborators *)

Record Externals := {
  (* bytes.decode() accepts exactly the valid UTF-8 buffers *)
  utf8_valid : bytes -> bool;
  (* json.loads: [None] is json.decoder.JSONDecodeError *)
  json_loads : string -> option json;
  (* json.dumps, compact and with indent=4: [None] is its TypeError *)
  json_dumps : list (string * pyval) -> option string;
  json_dumps_indent : DeployParameters -> option string;
  (* np.array(v, dtype=np.float32).item(): [None] is a numpy error *)
  np_float32_item : json -> option float;
  (* float32 subtraction of numpy *)
  float32_sub : float32 -> float32 -> float32;
  (* the Python float an ndarray element becomes under tolist() *)
  float32_to_float : float32 -> float;
  (* float(n) for an int: [None] is OverflowError *)
  float_of_int : Z -> option float;
  (* float(s) for a str: [None] is ValueError *)
  float_of_str : string -> option float;
  (* str(x) for a float *)
  float_str : float -> string;
  (* get_transforms(config, image_size, to_tensor=True)._to_dict() *)
  get_transforms_to_dict : json -> list Z -> json;
  (* get_anomalib_config(task_name, otx_config) as a container *)
  get_anomalib_config : string -> HyperParameters -> Config;
  (* os.path.abspath(os.path.dirname(path)) *)
  os_path_abspath_dirname : string -> string;
  (* read_py_config(path), [None] when the file does not exist *)
  read_py_config : string -> option (list (string * json));
  (* ov.Core().read_model on the files written: [None] when it raises *)
  read_model : bytes -> bytes -> option IRModel;
  check_if_quantized : IRModel -> bool;
  (* nncf.quantize(model, calibration data, **config): [None] when it raises *)
  nncf_quantize : IRModel -> OTXNNCFAnomalyDataloader -> QuantizationConfig -> option IRModel;
  (* ov.save_model: the contents of model.xml and model.bin *)
  save_model : IRModel -> bytes * bytes;
  (* AnomalyDetection.create_model accepts the IR; otherwise RuntimeError *)
  model_api_accepts : bytes -> bytes -> bool;
  (* embed_ir_model_data(xml_path, extra_model_data): the rewritten xml *)
  embed_ir_model_data : bytes -> list ((string * string) * pyval) -> bytes;
  label_schema_to_bytes : list LabelEntity -> bytes;
  LabelSchemaMapper_forward : list LabelEntity -> json;
  (* random.shuffle of an index list *)
  random_shuffle : list nat -> list nat;
  (* a file below os.path.dirname(demo.__file__), [None] when missing *)
  demo_file : string -> option bytes;
}.

(** [bytes.decode()] *)
Definition bytes_decode (E : Externals) (b : bytes) : result string :=
  if utf8_valid E b then Ok (string_of_list_byte b) else Raise UnicodeDecodeError.

(** [str.encode()] *)
Definition str_encode (s : string) : bytes := list_byte_of_string s.

(** ** The mutable world *)

Inductive Event :=
| EvProgress (percent : Z)
| EvQuantize (data_loader : OTXNNCFAnomalyDataloader) (config : QuantizationConfig).

Record World := {
  heap : gmap nat ModelEntity;            (* the ModelEntity objects *)
  env_model : option nat;                 (* self.task_environment.model *)
  inference_model : option AnomalyDetection;   (* self.inference_model *)
  events : list Event;                    (* callbacks and NNCF calls, oldest first *)
}.

(** A reference that was never written denotes a freshly constructed entity. *)
Definition deref (w : World) (r : nat) : ModelEntity :=
  default blank_model (heap w !! r).

Definition update_model (r : nat) (f : ModelEntity -> ModelEntity) (w : World) : World :=
  {| heap := <[r := f (deref w r)]> (heap w); env_model := env_model w;
     inference_model := inference_model w; events := events w |}.

Definition set_env_model (r : option nat) (w : World) : World :=
  {| heap := heap w; env_model := r;
     inference_model := inference_model w; events := events w |}.

Definition set_inference_model (m : AnomalyDetection) (w : World) : World :=
  {| heap := heap w; env_model := env_model w;
     inference_model := Some m; events := events w |}.

Definition emit (e : Event) (w : World) : World :=
  {| heap := heap w; env_model := env_model w;
     inference_model := inference_model w; events := (events w ++ [e])%list |}.

(** Stateful computations that may raise. *)
Definition M (A : Type) : Type := World -> result A * World.

Definition ret {A} (a : A) : M A := fun w => (Ok a, w).
Definition raise {A} (e : exn) : M A := fun w => (Raise e, w).
Definition lift {A} (r : result A) : M A := fun w => (r, w).
Definition bind {A B} (c : M A) (k : A -> M B) : M B :=
  fun w => match c w with
           | (Ok a, w') => k a w'
           | (Raise e, w') => (Raise e, w')
           end.
Definition modify (f : World -> World) : M unit := fun w => (Ok tt, f w).
Definition gets {A} (f : World -> A) : M A := fun w => (Ok (f w), w).

Definition reads {A} (f : World -> result A) : M A := fun w => (f w, w).

Notation "'do' x '<-' c ';' k" := (bind c (fun x => k))
  (at level 10, x pattern, c at level 100, k at level 200).
Notation "'do_' c ';' k" := (bind c (fun _ => k))
  (at level 10, c at level 100, k at level 200).

(** ** Python operations on JSON-like values *)

(** [j[k]] with a string key. *)
Definition json_getitem (k : string) (j : json) : result json :=
  match j with
  | JDict d => dict_item k d
  | _ => Raise TypeError
  end.

(** [v[k]] with a string key. *)
Definition py_getitem (k : string) (v : pyval) : result json :=
  match v with
  | PJson j => json_getitem k j
  | PArray _ => Raise IndexError
  end.

(** The elements a [for] loop sees. *)
Definition json_iter (j : json) : result (list json) :=
  match j with
  | JList l => Ok l
  | JDict d => Ok (map (fun kv => JStr (fst kv)) d)
  | JStr s => Ok (map (fun c => JStr (String c EmptyString)) (list_ascii_of_string s))
  | _ => Raise TypeError
  end.

(** [d.pop(k)]: the value and the dict without the key. *)
Definition json_pop (k : string) (j : json) : result (json * json) :=
  match j with
  | JDict d =>
      match dict_get k d with
      | Some v => Ok (v, JDict (dict_del k d))
      | None => Raise (KeyError k)
      end
  | JList _ => Raise TypeError
  | _ => Raise AttributeError
  end.

(** [j == s] for a string literal [s]. *)
Definition json_eq_str (j : json) (s : string) : bool :=
  match j with
  | JStr s' => bool_decide (s' = s)
  | _ => false
  end.

(** [mapM] for [result]: the first exception wins. *)
Fixpoint result_map {A B} (f : A -> result B) (l : list A) : result (list B) :=
  match l with
  | [] => Ok []
  | a :: l' =>
      let? b := f a in
      let? bs := result_map f l' in
      Ok (b :: bs)
  end.

Section Task.
Variable E : Externals.

(** [x * 255.0] *)
Definition mul_255 (x : json) : result float :=
  match x with
  | JFloat f => Ok (f * 255)%float
  | JInt n =>
      match float_of_int E n with
      | Some f => Ok (f * 255)%float
      | None => Raise OverflowError
      end
  | JBool b => Ok ((if b then 1 else 0) * 255)%float
  | _ => Raise TypeError
  end.

(** [_serialize_list]: [" ".join(map(str, arr))] *)
Definition _serialize_list (arr : list float) : string :=
  str_join " " (map (float_str E) arr).

(** [metadata["max"] - metadata["min"]]: [get_metadata] yields either two
    Python floats or two float32 arrays; other operands are refused. *)
Definition py_sub (a b : pyval) : result pyval :=
  match a, b with
  | PJson (JFloat x), PJson (JFloat y) => Ok (PJson (JFloat (x - y)%float))
  | PArray x, PArray y =>
      match np_broadcast (float32_sub E) x y with
      | Some r => Ok (PArray r)
      | None => Raise (ValueError "operands could not be broadcast together")
      end
  | _, _ => Raise TypeError
  end.

(** *** The task object *)

Record OpenVINOTask := {
  task_environment : TaskEnvironment;
  task_type : TaskType;
  config : Config;
  (* assigned last by __init__; [None] is an attribute not yet set *)
  normal_label : option LabelEntity;
  anomalous_label : option LabelEntity;
  _base_dir : option string;
}.

(** *** Metadata resolution *)

(** [np.frombuffer(model.get_data(key), dtype=np.float32)] *)
Definition frombuffer_data (m : ModelEntity) (key : string) : result pyval :=
  let? buf := get_data m key in
  match np_frombuffer_float32 buf with
  | Some a => Ok (PArray a)
  | None => Raise (ValueError "buffer size must be a multiple of element size")
  end.

(** [str(self.task_type).lower().split("_")[-1]] *)
Definition task_kind (t : TaskType) : string :=
  List.last (str_split "_" (str_lower (TaskType_str t))) "".

Definition _populate_metadata_legacy (self : OpenVINOTask) (m : ModelEntity)
    : result (list (string * pyval)) :=
  let? image_threshold := frombuffer_data m "image_threshold" in
  let? pixel_threshold := frombuffer_data m "pixel_threshold" in
  let? min_value := frombuffer_data m "min" in
  let? max_value := frombuffer_data m "max" in
  let transform :=
    get_transforms_to_dict E (transform_config_train (config self))
                           (image_size (config self)) in
  Ok [ ("transform", PJson (JDict [("transform", transform)]));
       ("image_threshold", image_threshold);
       ("pixel_threshold", pixel_threshold);
       ("min", min_value);
       ("max", max_value);
       ("task", PJson (JStr (task_kind (task_type self)))) ].

(** [metadata[key] = np.array(metadata[key], dtype=np.float32).item()] *)
Definition float32_item_at (key : string) (metadata : json) : result json :=
  let? value := json_getitem key metadata in
  match np_float32_item E value, metadata with
  | Some x, JDict d => Ok (JDict (dict_set key (JFloat x) d))
  | Some _, _ => Raise TypeError
  | None, _ => Raise NumpyError
  end.

Definition _populate_metadata (metadata : json) : result json :=
  let? metadata := float32_item_at "image_threshold" metadata in
  let? metadata := float32_item_at "pixel_threshold" metadata in
  let? metadata := float32_item_at "min" metadata in
  float32_item_at "max" metadata.

(** The [try] block of [get_metadata]. *)
Definition load_metadata (m : ModelEntity) : result json :=
  let? raw := get_data m "metadata" in
  let? text := bytes_decode E raw in
  let? metadata :=
    match json_loads E text with
    | Some j => Ok j
    | None => Raise JSONDecodeError
    end in
  _populate_metadata metadata.

(** The dict that [get_metadata] returns after the [try] block succeeded;
    [_populate_metadata] has subscripted it, so it is a dict. *)
Definition as_metadata (j : json) : result (list (string * pyval)) :=
  match j with
  | JDict d => Ok (map (fun kv => (fst kv, PJson (snd kv))) d)
  | _ => Raise TypeError
  end.

Definition get_metadata (self : OpenVINOTask) (w : World)
    : result (list (string * pyval)) :=
  match env_model w with
  | Some r =>
      match load_metadata (deref w r) with
      | Ok metadata => as_metadata metadata
      | Raise (KeyError _) | Raise JSONDecodeError =>
          (* model is from version 1.2.x *)
          _populate_metadata_legacy self (deref w r)
      | Raise e => Raise e
      end
  | None =>
      Raise (ValueError "Cannot access meta-data. self.task_environment.model is empty.")
  end.

(** *** Metadata in IR format *)

Definition model_info (key : string) : string * string := ("model_info", key).

Definition ExtraModelData := list ((string * string) * pyval).

(** The first loop of [_metadata_in_ir_format]. *)
Definition copy_model_info (metadata : list (string * pyval)) : ExtraModelData :=
  fold_left
    (fun extra_model_data kv =>
       if decide (fst kv ∈ ["transform"; "min"; "max"]) then extra_model_data
       else dict_set (model_info (fst kv)) (snd kv) extra_model_data)
    metadata [].

(** [[x * 255.0 for x in transform_dict[key]]] *)
Definition scaled_by_255 (key : string) (transform_dict : json) : result (list float) :=
  let? values := json_getitem key transform_dict in
  let? values := json_iter values in
  result_map mul_255 values.

(** One iteration of the loop over the transforms. *)
Definition add_transform (extra_model_data : ExtraModelData) (transform_dict : json)
    : result ExtraModelData :=
  let? popped := json_pop "__class_fullname__" transform_dict in
  let transform := fst popped in
  let transform_dict := snd popped in
  if json_eq_str transform "Normalize" then
    let? mean := scaled_by_255 "mean" transform_dict in
    let extra_model_data :=
      dict_set (model_info "mean_values") (PJson (JStr (_serialize_list mean)))
               extra_model_data in
    let? std := scaled_by_255 "std" transform_dict in
    Ok (dict_set (model_info "scale_values") (PJson (JStr (_serialize_list std)))
                 extra_model_data)
  else if json_eq_str transform "Resize" then
    let? height := json_getitem "height" transform_dict in
    let extra_model_data :=
      dict_set (model_info "orig_height") (PJson height) extra_model_data in
    let? width := json_getitem "width" transform_dict in
    Ok (dict_set (model_info "orig_width") (PJson width) extra_model_data)
  else
    (* logger.warn: transform is not supported currently *)
    Ok extra_model_data.

Fixpoint add_transforms (extra_model_data : ExtraModelData) (transforms : list json)
    : result ExtraModelData :=
  match transforms with
  | [] => Ok extra_model_data
  | transform_dict :: rest =>
      let? extra_model_data := add_transform extra_model_data transform_dict in
      add_transforms extra_model_data rest
  end.

(** [_metadata_in_ir_format] on the mapping [get_metadata] returned. *)
Definition metadata_to_ir_format (metadata : list (string * pyval))
    : result ExtraModelData :=
  let extra_model_data := copy_model_info metadata in
  (* Add transforms *)
  let? extra_model_data :=
    match dict_get "transform" metadata with
    | Some transform =>
        let? t := py_getitem "transform" transform in
        let? t := json_getitem "transforms" t in
        let? transforms := json_iter t in
        add_transforms extra_model_data transforms
    | None => Ok extra_model_data
    end in
  (* min and max are fused into one op *)
  let? extra_model_data :=
    match dict_get "min" metadata, dict_get "max" metadata with
    | Some min_value, Some max_value =>
        let? scale := py_sub max_value min_value in
        Ok (dict_set (model_info "normalization_scale") scale extra_model_data)
    | _, _ => Ok extra_model_data
    end in
  let extra_model_data :=
    dict_set (model_info "reverse_input_channels") (PJson (JBool false)) extra_model_data in
  let extra_model_data :=
    dict_set (model_info "model_type") (PJson (JStr "AnomalyDetection")) extra_model_data in
  Ok (dict_set (model_info "labels") (PJson (JStr "Normal Anomaly")) extra_model_data).

Definition _metadata_in_ir_format (self : OpenVINOTask) (w : World)
    : result ExtraModelData :=
  let? metadata := get_metadata self w in
  metadata_to_ir_format metadata.

(** *** The inference model *)

(** [AnomalyDetection.create_model(model=xml, weights_path=bin)] on the
    artifact's two IR blobs. *)
Definition create_model (m : ModelEntity) : result AnomalyDetection :=
  let? xml := get_data m "openvino.xml" in
  let? bin := get_data m "openvino.bin" in
  if model_api_accepts E xml bin then Ok {| ad_model := xml; ad_weights := bin |}
  else Raise (RuntimeError "AnomalyDetection.create_model").

(** [value.tolist()] for the ndarray values. *)
Definition tolist (value : pyval) : pyval :=
  match value with
  | PArray a => PJson (JList (map (fun x => JFloat (float32_to_float E x)) a))
  | PJson _ => value
  end.

Definition _create_from_legacy (self : OpenVINOTask) : M unit :=
  do extra_model_data <- reads (_metadata_in_ir_format self);
  let extra_model_data := map (fun kv => (fst kv, tolist (snd kv))) extra_model_data in
  do r <- gets env_model;
  match r with
  | None => raise AttributeError
  | Some r =>
      do xml_data <- reads (fun w => get_data (deref w r) "openvino.xml");
      do bin_data <- reads (fun w => get_data (deref w r) "openvino.bin");
      let xml_data := embed_ir_model_data E xml_data extra_model_data in
      do_ modify (update_model r (set_data "openvino.xml" xml_data));
      modify (update_model r (set_data "openvino.bin" bin_data))
  end.

Definition get_openvino_model (self : OpenVINOTask) : M AnomalyDetection :=
  do r <- gets env_model;
  match r with
  | None => raise (Exception_ "task_environment.model is None. Cannot load weights.")
  | Some r =>
      fun w =>
        match create_model (deref w r) with
        | Raise (RuntimeError _) =>
            (* Possibly a legacy model is being loaded. *)
            (do_ _create_from_legacy self;
             reads (fun w => create_model (deref w r))) w
        | res => (res, w)
        end
  end.

(** *** Construction *)

(** [[label for label in labels if cond(label)][0]] *)
Definition first_label (cond : LabelEntity -> bool) (labels : list LabelEntity)
    : result LabelEntity :=
  match List.filter cond labels with
  | label :: _ => Ok label
  | [] => Raise IndexError
  end.

Definition get_config (task_environment : TaskEnvironment) : Config :=
  get_anomalib_config E (template_name task_environment)
                      (get_hyper_parameters task_environment).

(** [self] when [__init__] calls [get_openvino_model]: the labels and the
    base directory are not assigned yet. *)
Definition before_labels (task_environment : TaskEnvironment) : OpenVINOTask :=
  {| task_environment := task_environment;
     task_type := template_task_type task_environment;
     config := get_config task_environment;
     normal_label := None; anomalous_label := None; _base_dir := None |}.

Definition __init__ (task_environment : TaskEnvironment) : M OpenVINOTask :=
  let self := before_labels task_environment in
  do inference_model <- get_openvino_model self;
  do_ modify (set_inference_model inference_model);
  let labels := get_labels task_environment in
  do normal <- lift (first_label (fun label => negb (is_anomalous label)) labels);
  do anomalous <- lift (first_label (fun label => is_anomalous label) labels);
  ret {| task_environment := task_environment;
         task_type := task_type self;
         config := config self;
         normal_label := Some normal;
         anomalous_label := Some anomalous;
         _base_dir := Some (os_path_abspath_dirname E (model_template_path task_environment)) |}.

(** *** The calibration data loader *)

Definition OTXNNCFAnomalyDataloader_init (dataset : DatasetEntity)
    (model : option AnomalyDetection) (shuffle : bool) : OTXNNCFAnomalyDataloader :=
  {| dataset := dataset; model := model;
     shuffler :=
       if shuffle then Some (random_shuffle E (seq 0 (length (items dataset))))
       else None |}.

(** [__len__] *)
Definition OTXNNCFAnomalyDataloader_len (self : OTXNNCFAnomalyDataloader) : Z :=
  Z.of_nat (length (items (dataset self))).


(** *** Post-training quantization *)

Definition _get_optimization_algorithms_config (self : OpenVINOTask)
    : result QuantizationConfig :=
  let hparams := get_hyper_parameters (task_environment self) in
  match _base_dir self with
  | None => Raise AttributeError
  | Some base_dir =>
      let optimization_config_path := os_path_join base_dir "ptq_optimization_config.py" in
      let ptq_config := default [] (read_py_config E optimization_config_path) in
      Ok {| file_arguments := ptq_config;
            subset_size := stat_subset_size hparams;
            preset := pot_preset hparams |}
  end.

Definition with_subset_size (n : Z) (c : QuantizationConfig) : QuantizationConfig :=
  {| file_arguments := file_arguments c; subset_size := n; preset := preset c |}.

(** [[item for item in dataset if item.get_shapes_labels()[0].is_anomalous]] *)
Fixpoint anomalous_items (l : list DatasetItemEntity) : result (list DatasetItemEntity) :=
  match l with
  | [] => Ok []
  | item :: rest =>
      match get_shapes_labels item with
      | [] => Raise IndexError
      | label :: _ =>
          let? rest := anomalous_items rest in
          Ok (if is_anomalous label then item :: rest else rest)
      end
  end.

(** [optimization_parameters.update_progress(percent, None)] when
    [optimization_parameters is not None] *)
Definition update_progress (optimization_parameters : option OptimizationParameters)
    (percent : Z) : M unit :=
  match optimization_parameters with
  | Some _ => modify (emit (EvProgress percent))
  | None => ret tt
  end.

Definition stamp_quantized (m : ModelEntity) : ModelEntity :=
  {| model_adapters := model_adapters m; model_format := OPENVINO;
     optimization_type := MOT_POT; optimization_methods := [QUANTIZATION];
     precision := [INT8]; exportable_code := exportable_code m |}.

(** The first temporary directory of [optimize]: the weights are written
    out, read back as an IR and checked. *)
Definition read_weights (self : OpenVINOTask) : M IRModel :=
  do r <- gets env_model;
  do weights <-
    match r with
    | Some r =>
        do xml <- reads (fun w => get_data (deref w r) "openvino.xml");
        do bin <- reads (fun w => get_data (deref w r) "openvino.bin");
        ret (xml, bin)
    | None => raise (ValueError "Cannot save the weights. self.task_environment.model is None.")
    end;
  do ov_model <-
    match read_model E (fst weights) (snd weights) with
    | Some ov_model => ret ov_model
    | None => raise (RuntimeError "Core.read_model")
    end;
  if check_if_quantized E ov_model then
    raise (RuntimeError "Model is already optimized by PTQ")
  else ret ov_model.

(** The second temporary directory and what follows it, up to the reload
    of the inference model. *)
Definition store_quantized (self : OpenVINOTask) (output_model : nat)
    (compressed_model : IRModel) : M unit :=
  let saved := save_model E compressed_model in
  do_ modify (update_model output_model (set_data "openvino.xml" (fst saved)));
  do_ modify (update_model output_model (set_data "openvino.bin" (snd saved)));
  do_ modify (update_model output_model
                (set_data "label_schema.json"
                   (label_schema_to_bytes E (label_schema (task_environment self)))));
  do_ modify (update_model output_model stamp_quantized);
  do metadata <- reads (get_metadata self);
  do dumped <-
    match json_dumps E metadata with
    | Some text => ret text
    | None => raise TypeError
    end;
  do_ modify (update_model output_model (set_data "metadata" (str_encode dumped)));
  do_ modify (set_env_model (Some output_model));
  do inference_model <- get_openvino_model self;
  modify (set_inference_model inference_model).

Definition optimize (self : OpenVINOTask) (optimization_type : OptimizationType)
    (dataset : DatasetEntity) (output_model : nat)
    (optimization_parameters : option OptimizationParameters) : M unit :=
  if negb (bool_decide (optimization_type = POT)) then
    raise (ValueError "PTQ is the only supported optimization type for OpenVINO models")
  else
    (* Anomalous examples from all dataset used to get statistics for quantization. *)
    do anomalous <- lift (anomalous_items (items dataset));
    let dataset := {| items := anomalous; purpose := purpose dataset |} in
    do inference_model <- gets inference_model;
    let data_loader := OTXNNCFAnomalyDataloader_init dataset inference_model true in
    do ov_model <- read_weights self;
    do_ update_progress optimization_parameters 10;
    do quantization_config <- lift (_get_optimization_algorithms_config self);
    let quantization_config :=
      with_subset_size
        (Z.min (subset_size quantization_config) (OTXNNCFAnomalyDataloader_len data_loader))
        quantization_config in
    do_ modify (emit (EvQuantize data_loader quantization_config));
    do compressed_model <-
      match nncf_quantize E ov_model data_loader quantization_config with
      | Some compressed_model => ret compressed_model
      | None => raise QuantizationError
      end;
    do_ update_progress optimization_parameters 90;
    do_ store_quantized self output_model compressed_model;
    update_progress optimization_parameters 100.

(** *** Deployment *)

(** One iteration of the loop of [_get_openvino_configuration]. *)
Definition add_configuration (configuration : list (string * pyval))
    (entry : (string * string) * pyval) : result (list (string * pyval)) :=
  let key := fst entry in
  let value := snd entry in
  if decide (snd key = "labels") then
    match value with
    | PJson (JStr value) =>
        Ok (dict_set "modelapi_labels" (PJson (JList (map JStr (str_split " " value))))
                     configuration)
    | _ => Raise AssertionError
    end
  else if decide (snd key ∈ ["mean_values"; "scale_values"]) then
    match value with
    | PJson (JStr value) =>
        let? floats :=
          result_map
            (fun x => match float_of_str E x with
                      | Some f => Ok (JFloat f)
                      | None => Raise (ValueError "could not convert string to float")
                      end)
            (str_split " " value) in
        Ok (dict_set (snd key) (PJson (JList floats)) configuration)
    | _ => Raise AssertionError
    end
  else Ok (dict_set (snd key) value configuration).

Fixpoint add_configurations (configuration : list (string * pyval))
    (entries : ExtraModelData) : result (list (string * pyval)) :=
  match entries with
  | [] => Ok configuration
  | entry :: rest =>
      let? configuration := add_configuration configuration entry in
      add_configurations configuration rest
  end.

Definition _get_openvino_configuration (self : OpenVINOTask) (w : World)
    : result (list (string * pyval)) :=
  match env_model w with
  | None => Raise (Exception_ "task_environment.model is None. Cannot get configuration.")
  | Some _ =>
      let configuration :=
        [("labels", PJson (LabelSchemaMapper_forward E (label_schema (task_environment self))))] in
      let? extra_model_data := _metadata_in_ir_format self w in
      add_configurations configuration extra_model_data
  end.

(** [arch.writestr(name, data)] *)
Definition ZipFile_writestr (arch : ZipArchive) (name : string) (data : bytes) : ZipArchive :=
  (arch ++ [(name, data)])%list.

(** [arch.write(os.path.join(work_dir, filename), arcname)]: the member
    name is the normalised [arcname]. *)
Definition ZipFile_write (arch : ZipArchive) (filename arcname : string)
    : result ZipArchive :=
  match demo_file E filename with
  | Some data => Ok (arch ++ [(os_path_normpath arcname, data)])%list
  | None => Raise (FileNotFoundError filename)
  end.

(** The body of the [with ZipFile(zip_buffer, "w") as arch] block. *)
Definition deploy_archive (parameters : DeployParameters) (m : ModelEntity)
    : result ZipArchive :=
  let arch : ZipArchive := [] in
  (* model files *)
  let? xml := get_data m "openvino.xml" in
  let arch := ZipFile_writestr arch (os_path_join "model" "model.xml") xml in
  let? bin := get_data m "openvino.bin" in
  let arch := ZipFile_writestr arch (os_path_join "model" "model.bin") bin in
  let? config_json :=
    match json_dumps_indent E parameters with
    | Some text => Ok text
    | None => Raise TypeError
    end in
  let arch := ZipFile_writestr arch (os_path_join "model" "config.json") (str_encode config_json) in
  (* other python files *)
  let? arch := ZipFile_write arch "requirements.txt" (os_path_join "python" "requirements.txt") in
  let? arch := ZipFile_write arch "LICENSE" (os_path_join "python" "LICENSE") in
  let? arch := ZipFile_write arch "demo.py" (os_path_join "python" "demo.py") in
  ZipFile_write arch "README.md" (os_path_join "." "README.md").

Definition set_exportable_code (code : ZipArchive) (m : ModelEntity) : ModelEntity :=
  {| model_adapters := model_adapters m; model_format := model_format m;
     optimization_type := optimization_type m;
     optimization_methods := optimization_methods m;
     precision := precision m; exportable_code := Some code |}.

Definition deploy (self : OpenVINOTask) (output_model : nat) : M unit :=
  do r <- gets env_model;
  match r with
  | None => raise (Exception_ "task_environment.model is None. Cannot load weights.")
  | Some r =>
      let task_type := str_lower (TaskType_str (task_type self)) in
      do model_parameters <- reads (_get_openvino_configuration self);
      let parameters :=
        {| type_of_model := "AnomalyDetection";
           converter_type := str_upper task_type;
           model_parameters := model_parameters |} in
      do arch <- reads (fun w => deploy_archive parameters (deref w r));
      modify (update_model output_model (set_exportable_code arch))
  end.
End Task.

(** [ZipFile.namelist()] *)
Definition ZipFile_namelist (arch : ZipArchive) : list string := map fst arch.

(** [ZipFile.read(name)]: the member written last under that name. *)
Definition ZipFile_read (arch : ZipArchive) (name : string) : option bytes :=
  dict_get name (rev arch).

(** * Inference and evaluation *)

(** ** Progress percentages *)

(** [int(x)] for a Python float: truncation towards zero. *)
Definition py_int (x : float) : result Z :=
  match Prim2SF x with
  | S754_zero _ => Ok 0
  | S754_infinity _ => Raise OverflowError
  | S754_nan => Raise (ValueError "cannot convert float NaN to integer")
  | S754_finite s m e =>
      let z := if (0 <=? e) then Z.pos m * 2 ^ e else Z.pos m / 2 ^ (- e) in
      Ok (if s then - z else z)
  end.

(** The float of a count; exact below 2^53. *)
Definition float_of_nat (n : nat) : float :=
  PrimFloat.of_uint63 (Uint63.of_Z (Z.of_nat n)).

(** [int((idx + 1) / len(dataset) * 100)], for datasets of fewer than 2^53
    items, where Python's true division of two ints is the division of their
    floats. *)
Definition progress_percent (idx total : nat) : result Z :=
  py_int (float_of_nat (idx + 1) / float_of_nat total * 100)%float.

(** ** Entities

    Modelled from the spec: the result of the model API and the dataset items
    as [infer] reads and writes them (the image, and what
    [append_annotations], [append_labels] and [append_metadata_item] add). *)

Record AnomalyResult := {
  pred_label : string;
  pred_score : float;
  pred_mask : nat;       (* identifies the mask *)
  anomaly_map : nat;     (* identifies the heat map *)
}.

Inductive Annotation := Annotation_of (shape : nat) (label : LabelEntity).

Record ScoredLabel := { scored_label : LabelEntity; probability : float }.

Record ResultMediaEntity := {
  media_name : string;
  media_type : string;
  media_label : LabelEntity;
  media_numpy : nat;
}.

Record InferenceItem := {
  numpy : nat;                               (* identifies the image *)
  annotations : list Annotation;
  item_labels : list ScoredLabel;
  metadata_items : list ResultMediaEntity;
}.

Inductive InferenceParameters := InferenceParameters_default.

Record Performance := { score_name : string; score_value : nat }.

Record ResultSetEntity := {
  ground_truth_dataset : list InferenceItem;
  prediction_dataset : list InferenceItem;
  performance : option Performance;
}.

Record InferenceExternals := {
  (* self.inference_model(image) *)
  predict : AnomalyDetection -> nat -> AnomalyResult;
  (* create_annotation_from_segmentation_map(mask, soft map, {0: normal, 1: anomalous}) *)
  create_annotation_from_segmentation_map :
    nat -> nat -> LabelEntity -> LabelEntity -> list Annotation;
  (* create_detection_annotation_from_anomaly_heatmap(mask, soft map, {0: normal, 1: anomalous}) *)
  create_detection_annotation_from_anomaly_heatmap :
    nat -> nat -> LabelEntity -> LabelEntity -> list Annotation;
  (* MetricsHelper.compute_*(resultset).get_performance() *)
  compute_f_measure : ResultSetEntity -> Performance;
  compute_anomaly_detection_scores : ResultSetEntity -> Performance;
  compute_anomaly_segmentation_scores : ResultSetEntity -> Performance;
}.

Section Inference.
Variable I : InferenceExternals.

(** Reading an attribute that [__init__] may not have assigned yet. *)
Definition getattr {A} (attribute : option A) : result A :=
  match attribute with
  | Some a => Ok a
  | None => Raise AttributeError
  end.

Definition append_annotations (new : list Annotation) (item : InferenceItem) : InferenceItem :=
  {| numpy := numpy item; annotations := (annotations item ++ new)%list;
     item_labels := item_labels item; metadata_items := metadata_items item |}.

Definition append_labels (new : list ScoredLabel) (item : InferenceItem) : InferenceItem :=
  {| numpy := numpy item; annotations := annotations item;
     item_labels := (item_labels item ++ new)%list; metadata_items := metadata_items item |}.

Definition append_metadata_item (media : ResultMediaEntity) (item : InferenceItem)
    : InferenceItem :=
  {| numpy := numpy item; annotations := annotations item;
     item_labels := item_labels item;
     metadata_items := (metadata_items item ++ [media])%list |}.

(** The annotations and the label of the segmentation and detection branches. *)
Definition label_from_annotations
    (create : nat -> nat -> LabelEntity -> LabelEntity -> list Annotation)
    (self : OpenVINOTask) (image_result : AnomalyResult) (dataset_item : InferenceItem)
    : result (InferenceItem * LabelEntity) :=
  let? normal := getattr (normal_label self) in
  let? anomalous := getattr (anomalous_label self) in
  let annotations :=
    create (pred_mask image_result) (anomaly_map image_result) normal anomalous in
  let dataset_item := append_annotations annotations dataset_item in
  Ok (dataset_item, if decide (length annotations = 0%nat) then normal else anomalous).

(** The body of the loop of [infer], up to the progress callback. *)
Definition infer_item (self : OpenVINOTask) (inference_model : option AnomalyDetection)
    (dataset_item : InferenceItem) : result InferenceItem :=
  let? inference_model :=
    match inference_model with
    | Some m => Ok m
    | None => Raise TypeError
    end in
  let image_result := predict I inference_model (numpy dataset_item) in
  let probability :=
    if decide (pred_label image_result = "Anomaly") then pred_score image_result
    else (1 - pred_score image_result)%float in
  let? labelled :=
    match task_type self with
    | ANOMALY_CLASSIFICATION =>
        let? label :=
          if (0.5 <=? pred_score image_result)%float then getattr (anomalous_label self)
          else getattr (normal_label self) in
        Ok (dataset_item, label)
    | ANOMALY_SEGMENTATION =>
        label_from_annotations (create_annotation_from_segmentation_map I)
                               self image_result dataset_item
    | ANOMALY_DETECTION =>
        label_from_annotations (create_detection_annotation_from_anomaly_heatmap I)
                               self image_result dataset_item
    | OTHER_TASK _ =>
        Raise (ValueError ("Unknown task type: " ++ TaskType_str (task_type self)))
    end in
  let dataset_item := fst labelled in
  let label := snd labelled in
  let dataset_item :=
    append_labels [{| scored_label := label; probability := probability |}] dataset_item in
  let heatmap_media :=
    {| media_name := "Anomaly Map"; media_type := "anomaly_map";
       media_label := label; media_numpy := anomaly_map image_result |} in
  Ok (append_metadata_item heatmap_media dataset_item).

(** What a call of [infer] leaves behind: its outcome, the items as they are
    afterwards (they are updated in place, also before an exception), and the
    percentages passed to the progress callback of the inference parameters. *)
Record InferRun := {
  outcome : result unit;
  dataset_after : list InferenceItem;
  progress : list Z;
}.

(** The loop of [infer] from item [idx] on; [total] is [len(dataset)]. *)
Fixpoint infer_loop (self : OpenVINOTask) (inference_model : option AnomalyDetection)
    (inference_parameters : option InferenceParameters) (total idx : nat)
    (dataset : list InferenceItem) : InferRun :=
  match dataset with
  | [] => {| outcome := Ok tt; dataset_after := []; progress := [] |}
  | dataset_item :: rest =>
      match infer_item self inference_model dataset_item with
      | Raise e => {| outcome := Raise e; dataset_after := dataset; progress := [] |}
      | Ok updated =>
          match progress_percent idx total with
          | Raise e => {| outcome := Raise e; dataset_after := updated :: rest; progress := [] |}
          | Ok percent =>
              let run := infer_loop self inference_model inference_parameters total (S idx) rest in
              {| outcome := outcome run;
                 dataset_after := updated :: dataset_after run;
                 progress :=
                   match inference_parameters with
                   | Some _ => percent :: progress run
                   | None => progress run
                   end |}
          end
      end
  end.

Definition infer (self : OpenVINOTask) (dataset : list InferenceItem)
    (inference_parameters : option InferenceParameters) (w : World) : InferRun :=
  match env_model w with
  | None =>
      {| outcome :=
           Raise (Exception_ "task_environment.model is None. Cannot access threshold to calculate labels.");
         dataset_after := dataset; progress := [] |}
  | Some _ =>
      infer_loop self (inference_model w) inference_parameters (length dataset) 0 dataset
  end.

(** [evaluate]: the performance it stores in the result set. *)
Definition evaluate (self : OpenVINOTask) (output_resultset : ResultSetEntity)
    : result ResultSetEntity :=
  let? metric :=
    match task_type self with
    | ANOMALY_CLASSIFICATION => Ok (compute_f_measure I output_resultset)
    | ANOMALY_DETECTION => Ok (compute_anomaly_detection_scores I output_resultset)
    | ANOMALY_SEGMENTATION => Ok (compute_anomaly_segmentation_scores I output_resultset)
    | OTHER_TASK _ =>
        Raise (ValueError ("Unknown task type: " ++ TaskType_str (task_type self)))
    end in
  Ok {| ground_truth_dataset := ground_truth_dataset output_resultset;
        prediction_dataset := prediction_dataset output_resultset;
        performance := Some metric |}.
End Inference.

(** * Vocabulary of the properties *)

(** The four fields that the v1.2.x schema stores as separate blobs. *)
Definition legacy_keys : list string :=
  ["image_threshold"; "pixel_threshold"; "min"; "max"].


Definition normal_labels (labels : list LabelEntity) : list LabelEntity :=
  List.filter (fun label => negb (is_anomalous label)) labels.

Definition anomalous_labels (labels : list LabelEntity) : list LabelEntity :=
  List.filter (fun label => is_anomalous label) labels.

Definition is_anomalous_item (item : DatasetItemEntity) : bool :=
  match get_shapes_labels item with
  | label :: _ => is_anomalous label
  | [] => false
  end.

Definition progress_events (optimization_parameters : option OptimizationParameters)
    (percent : Z) : list Event :=
  match optimization_parameters with
  | Some _ => [EvProgress percent]
  | None => []
  end.

Definition add_events (new : list Event) (w : World) : World :=
  {| heap := heap w; env_model := env_model w;
     inference_model := inference_model w; events := (events w ++ new)%list |}.

(** The calibration loader and the clamped configuration that [optimize]
    hands to [nncf.quantize]. *)
Definition quantize_event (E : Externals) (dataset : DatasetEntity)
    (calibration : list DatasetItemEntity) (quantization_config : QuantizationConfig)
    (w : World) : Event :=
  EvQuantize
    (OTXNNCFAnomalyDataloader_init E {| items := calibration; purpose := purpose dataset |}
                                   (inference_model w) true)
    (with_subset_size
       (Z.min (subset_size quantization_config) (Z.of_nat (length calibration)))
       quantization_config).

(** How far a call of [optimize] with type POT got, by the events it added. *)
Inductive optimize_run (E : Externals) (self : OpenVINOTask) (dataset : DatasetEntity)
    (optimization_parameters : option OptimizationParameters) (w : World)
    : result unit -> list Event -> Prop :=
| run_rejected e :
    optimize_run E self dataset optimization_parameters w (Raise e) []
| run_unconfigured e :
    optimize_run E self dataset optimization_parameters w (Raise e)
      (progress_events optimization_parameters 10)
| run_quantizing calibration quantization_config e :
    anomalous_items (items dataset) = Ok calibration ->
    _get_optimization_algorithms_config E self = Ok quantization_config ->
    optimize_run E self dataset optimization_parameters w (Raise e)
      (progress_events optimization_parameters 10 ++
       [quantize_event E dataset calibration quantization_config w])
| run_storing calibration quantization_config e :
    anomalous_items (items dataset) = Ok calibration ->
    _get_optimization_algorithms_config E self = Ok quantization_config ->
    optimize_run E self dataset optimization_parameters w (Raise e)
      (progress_events optimization_parameters 10 ++
       [quantize_event E dataset calibration quantization_config w] ++
       progress_events optimization_parameters 90)
| run_completed calibration quantization_config :
    anomalous_items (items dataset) = Ok calibration ->
    _get_optimization_algorithms_config E self = Ok quantization_config ->
    optimize_run E self dataset optimization_parameters w (Ok tt)
      (progress_events optimization_parameters 10 ++
       [quantize_event E dataset calibration quantization_config w] ++
       progress_events optimization_parameters 90 ++
       progress_events optimization_parameters 100).

(** The percentages reported through the progress callback, in order. *)
Definition progress_values (evs : list Event) : list Z :=
  omap (fun ev => match ev with EvProgress percent => Some percent | _ => None end) evs.

(** The members of a deployment archive, in the order they are written. *)
Definition deployment_members : list string :=
  ["model/model.xml"; "model/model.bin"; "model/config.json";
   "python/requirements.txt"; "python/LICENSE"; "python/demo.py"; "README.md"].


(** The keys that the transform loop writes. *)
Definition transform_keys : list string :=
  ["mean_values"; "scale_values"; "orig_height"; "orig_width"].

(** * A concrete instance

    Externals, artifacts and a task on which the definitions evaluate. *)

Module Fixture.

Definition dq : string := String (ascii_of_nat 34) EmptyString.

(** [{"image_threshold": 0.5, "pixel_threshold": 0.25, "min": 0.0, "max": 2.0}] *)
Definition metadata_text : string :=
  "{" ++ dq ++ "image_threshold" ++ dq ++ ": 0.5, "
      ++ dq ++ "pixel_threshold" ++ dq ++ ": 0.25, "
      ++ dq ++ "min" ++ dq ++ ": 0.0, "
      ++ dq ++ "max" ++ dq ++ ": 2.0}".

Definition normalize : json :=
  JDict [("__class_fullname__", JStr "Normalize");
         ("mean", JList [JFloat 0.5; JFloat 0.25]);
         ("std", JList [JFloat 0.125; JFloat 2])].

Definition resize : json :=
  JDict [("__class_fullname__", JStr "Resize");
         ("height", JInt 256); ("width", JInt 256)].

Definition to_tensor : json :=
  JDict [("__class_fullname__", JStr "ToTensorV2")].

Definition compose : json :=
  JDict [("__class_fullname__", JStr "Compose");
         ("transforms", JList [resize; normalize; to_tensor])].

Definition ext : Externals :=
  {| utf8_valid := forallb (fun c => (Byte.to_N c <? 128)%N);
     json_loads := fun text =>
       if decide (text = "{}") then Some (JDict [])
       else if decide (text = metadata_text) then
         Some (JDict [("image_threshold", JFloat 0.5); ("pixel_threshold", JFloat 0.25);
                      ("min", JFloat 0); ("max", JFloat 2)])
       else None;
     json_dumps := fun metadata =>
       if forallb (fun kv => negb (is_ndarray (snd kv))) metadata then Some "{}" else None;
     json_dumps_indent := fun parameters =>
       if forallb (fun kv => negb (is_ndarray (snd kv))) (model_parameters parameters)
       then Some "{}" else None;
     np_float32_item := fun v => match v with JFloat x => Some x | _ => None end;
     float32_sub := fun a b => Float32 (float32_bits a - float32_bits b)%N;
     float32_to_float := fun _ => 0%float;
     float_of_int := fun n => Some (PrimFloat.of_uint63 (Uint63.of_Z n));
     float_of_str := fun _ => Some 0%float;
     float_str := fun x =>
       if (x =? 127.5)%float then "127.5"
       else if (x =? 63.75)%float then "63.75"
       else if (x =? 31.875)%float then "31.875"
       else if (x =? 510)%float then "510.0"
       else "0.0";
     get_transforms_to_dict := fun _ _ => compose;
     get_anomalib_config := fun _ _ =>
       {| transform_config_train := JNull; image_size := [256; 256] |};
     os_path_abspath_dirname := fun _ => "/templates/padim";
     read_py_config := fun _ => None;
     read_model := fun xml bin => Some {| ir_xml := xml; ir_bin := bin |};
     check_if_quantized := fun m =>
       match ir_xml m with
       | b :: _ => (Byte.to_N b =? 81)%N
       | [] => false
       end;
     nncf_quantize := fun m _ _ => Some {| ir_xml := [x51]; ir_bin := ir_bin m |};
     save_model := fun m => (ir_xml m, ir_bin m);
     model_api_accepts := fun _ _ => true;
     embed_ir_model_data := fun xml _ => xml;
     label_schema_to_bytes := fun _ => [];
     LabelSchemaMapper_forward := fun _ => JDict [];
     random_shuffle := fun l => rev l;
     demo_file := fun name =>
       if decide (name ∈ ["requirements.txt"; "LICENSE"; "demo.py"; "README.md"])
       then Some (str_encode name) else None |}.

Definition normal : LabelEntity := {| label_name := "Normal"; is_anomalous := false |}.
Definition anomalous : LabelEntity := {| label_name := "Anomalous"; is_anomalous := true |}.

Definition environment : TaskEnvironment :=
  {| template_task_type := ANOMALY_CLASSIFICATION;
     template_name := "padim";
     model_template_path := "/templates/padim/template.yaml";
     get_labels := [normal; anomalous];
     label_schema := [normal; anomalous];
     get_hyper_parameters := {| stat_subset_size := 300; pot_preset := PERFORMANCE |} |}.

Definition task : OpenVINOTask :=
  {| task_environment := environment;
     task_type := ANOMALY_CLASSIFICATION;
     config := get_config ext environment;
     normal_label := Some normal;
     anomalous_label := Some anomalous;
     _base_dir := Some "/templates/padim" |}.

Definition with_adapters (d : gmap string bytes) : ModelEntity :=
  with_data (fun _ => d) blank_model.

(** A v1.2.x artifact: four raw float32 blobs, no ["metadata"] key. *)
Definition legacy_model : ModelEntity :=
  with_adapters
    (<["openvino.xml" := [x3c]]> (<["openvino.bin" := [x00]]>
     (<["image_threshold" := [x00; x00; x00; x3f]]>
     (<["pixel_threshold" := [x00; x00; x80; x3e]]>
     (<["min" := [x00; x00; x00; x00]]>
     (<["max" := [x00; x00; x00; x40]]> ∅)))))).

(** A current artifact: one JSON blob under ["metadata"]. *)
Definition current_model : ModelEntity :=
  with_adapters
    (<["openvino.xml" := [x3c]]> (<["openvino.bin" := [x00]]>
     (<["metadata" := str_encode metadata_text]> ∅))).



(** An artifact that was already quantized. *)
Definition quantized_model : ModelEntity :=
  with_adapters
    (<["openvino.xml" := [x51]]> (<["openvino.bin" := [x00]]>
     (<["metadata" := str_encode metadata_text]> ∅))).

(** A world where the task's model is object 0 and object 1 is blank. *)
Definition world_of (m : ModelEntity) : World :=
  {| heap := {[ 0%nat := m ]}; env_model := Some 0%nat;
     inference_model := None; events := [] |}.

Definition no_model : World :=
  {| heap := ∅; env_model := None; inference_model := None; events := [] |}.

Definition item (n : nat) (labels : list LabelEntity) : DatasetItemEntity :=
  {| item_media := n; get_shapes_labels := labels |}.

Definition samples : DatasetEntity :=
  {| items := [item 0 [normal]; item 1 [anomalous]; item 2 [normal]; item 3 [anomalous]];
     purpose := TRAINING |}.


End Fixture.

(** * Vocabulary of the further properties *)

(** The keys written after the first loop of [_metadata_in_ir_format]. *)
Definition written_keys : list string :=
  ["mean_values"; "scale_values"; "orig_height"; "orig_width"; "normalization_scale";
   "reverse_input_channels"; "model_type"; "labels"].

(** Every key is a [("model_info", field)] pair and no key occurs twice. *)
Definition model_info_keys (extra_model_data : ExtraModelData) : Prop :=
  NoDup (map fst extra_model_data) /\
  Forall (fun kv => fst (fst kv) = "model_info") extra_model_data.

(** The configuration key that an IR-format entry is stored under. *)
Definition configuration_key (key : string * string) : string :=
  if decide (snd key = "labels") then "modelapi_labels" else snd key.

(** The characters of the string differ from the separator. *)
Definition free_of (sep : ascii) (s : string) : Prop :=
  Forall (fun c => c <> sep) (list_ascii_of_string s).

(** The concrete externals again, with a [float] that parses what [str]
    prints and a [json.dumps] that prints the metadata of the current
    artifact as it is stored there. *)
Module ParsingFixture.
Definition parsing_ext : Externals :=
  {| utf8_valid := utf8_valid Fixture.ext;
     json_loads := json_loads Fixture.ext;
     json_dumps := fun metadata =>
       if forallb (fun kv => negb (is_ndarray (snd kv))) metadata
       then Some Fixture.metadata_text else None;
     json_dumps_indent := json_dumps_indent Fixture.ext;
     np_float32_item := np_float32_item Fixture.ext;
     float32_sub := float32_sub Fixture.ext;
     float32_to_float := float32_to_float Fixture.ext;
     float_of_int := float_of_int Fixture.ext;
     float_of_str := fun s =>
       if decide (s = "127.5") then Some 127.5%float
       else if decide (s = "63.75") then Some 63.75%float
       else if decide (s = "31.875") then Some 31.875%float
       else if decide (s = "510.0") then Some 510%float
       else None;
     float_str := float_str Fixture.ext;
     get_transforms_to_dict := get_transforms_to_dict Fixture.ext;
     get_anomalib_config := get_anomalib_config Fixture.ext;
     os_path_abspath_dirname := os_path_abspath_dirname Fixture.ext;
     read_py_config := read_py_config Fixture.ext;
     read_model := read_model Fixture.ext;
     check_if_quantized := check_if_quantized Fixture.ext;
     nncf_quantize := nncf_quantize Fixture.ext;
     save_model := save_model Fixture.ext;
     model_api_accepts := model_api_accepts Fixture.ext;
     embed_ir_model_data := embed_ir_model_data Fixture.ext;
     label_schema_to_bytes := label_schema_to_bytes Fixture.ext;
     LabelSchemaMapper_forward := LabelSchemaMapper_forward Fixture.ext;
     random_shuffle := random_shuffle Fixture.ext;
     demo_file := demo_file Fixture.ext |}.
End ParsingFixture.

(** The concrete externals again, with a model API that refuses every IR. *)
Module LegacyFixture.
Definition legacy_ext : Externals :=
  {| utf8_valid := utf8_valid Fixture.ext;
     json_loads := json_loads Fixture.ext;
     json_dumps := json_dumps Fixture.ext;
     json_dumps_indent := json_dumps_indent Fixture.ext;
     np_float32_item := np_float32_item Fixture.ext;
     float32_sub := float32_sub Fixture.ext;
     float32_to_float := float32_to_float Fixture.ext;
     float_of_int := float_of_int Fixture.ext;
     float_of_str := float_of_str Fixture.ext;
     float_str := float_str Fixture.ext;
     get_transforms_to_dict := get_transforms_to_dict Fixture.ext;
     get_anomalib_config := get_anomalib_config Fixture.ext;
     os_path_abspath_dirname := os_path_abspath_dirname Fixture.ext;
     read_py_config := read_py_config Fixture.ext;
     read_model := read_model Fixture.ext;
     check_if_quantized := check_if_quantized Fixture.ext;
     nncf_quantize := nncf_quantize Fixture.ext;
     save_model := save_model Fixture.ext;
     model_api_accepts := fun _ _ => false;
     embed_ir_model_data := embed_ir_model_data Fixture.ext;
     label_schema_to_bytes := label_schema_to_bytes Fixture.ext;
     LabelSchemaMapper_forward := LabelSchemaMapper_forward Fixture.ext;
     random_shuffle := random_shuffle Fixture.ext;
     demo_file := demo_file Fixture.ext |}.
End LegacyFixture.

(** The world once [optimize] has stored the compressed model, the label
    schema and the stamps in [output_model]. *)
Definition quantized_artifact (E : Externals) (self : OpenVINOTask) (output_model : nat)
    (compressed_model : IRModel) (w : World) : World :=
  update_model output_model stamp_quantized
    (update_model output_model
       (set_data "label_schema.json"
          (label_schema_to_bytes E (label_schema (task_environment self))))
       (update_model output_model (set_data "openvino.bin" (snd (save_model E compressed_model)))
          (update_model output_model
             (set_data "openvino.xml" (fst (save_model E compressed_model))) w))).

(** [infer] has labelled the item: one scored label and one "Anomaly Map"
    media with the same label were appended, the label is one of the task's
    two labels, and in the segmentation and detection tasks it is the
    anomalous label exactly when annotations were added. *)
Definition labelled_by (self : OpenVINOTask) (old new : InferenceItem) : Prop :=
  exists label score heat_map added,
    numpy new = numpy old /\
    annotations new = (annotations old ++ added)%list /\
    item_labels new =
      (item_labels old ++ [{| scored_label := label; probability := score |}])%list /\
    metadata_items new =
      (metadata_items old ++
       [{| media_name := "Anomaly Map"; media_type := "anomaly_map";
           media_label := label; media_numpy := heat_map |}])%list /\
    (Some label = normal_label self \/ Some label = anomalous_label self) /\
    (task_type self = ANOMALY_CLASSIFICATION -> added = []) /\
    (task_type self <> ANOMALY_CLASSIFICATION ->
     (added = [] -> Some label = normal_label self) /\
     (added <> [] -> Some label = anomalous_label self)).

(** The list does not decrease from one element to the next. *)
Fixpoint nondecreasing (l : list Z) : bool :=
  match l with
  | x :: l' =>
      match l' with
      | y :: _ => (x <=? y) && nondecreasing l'
      | [] => true
      end
  | [] => true
  end.

(** The percentages reported for a dataset of [total] items are numbers that
    do not decrease and end at 100. *)
Definition progress_checked (total : nat) : bool :=
  match result_map (fun idx => progress_percent idx total) (seq 0 total) with
  | Ok percents =>
      nondecreasing percents &&
      match last percents with
      | Some percent => (percent =? 100)
      | None => true
      end
  | Raise _ => false
  end.

(** A model API and annotation helpers to run [infer] on. *)
Module InferenceFixture.
Definition inference_ext : InferenceExternals :=
  {| predict := fun _ image =>
       {| pred_label := if Nat.even image then "Anomaly" else "Normal";
          pred_score := if Nat.even image then 0.75%float else 0.25%float;
          pred_mask := if Nat.even image then 1 else 0;
          anomaly_map := image |};
     create_annotation_from_segmentation_map := fun mask _ _ anomalous =>
       match mask with
       | O => []
       | S _ => [Annotation_of mask anomalous]
       end;
     create_detection_annotation_from_anomaly_heatmap := fun mask _ _ anomalous =>
       match mask with
       | O => []
       | S _ => [Annotation_of mask anomalous]
       end;
     compute_f_measure := fun _ => {| score_name := "f-measure"; score_value := 1 |};
     compute_anomaly_detection_scores := fun _ =>
       {| score_name := "anomaly detection"; score_value := 1 |};
     compute_anomaly_segmentation_scores := fun _ =>
       {| score_name := "anomaly segmentation"; score_value := 1 |} |}.

Definition image (n : nat) : InferenceItem :=
  {| numpy := n; annotations := []; item_labels := []; metadata_items := [] |}.

Definition images : list InferenceItem := [image 0; image 1; image 2].

Definition loaded : World :=
  {| heap := {[ 0%nat := Fixture.current_model ]}; env_model := Some 0%nat;
     inference_model := Some {| ad_model := [x3c]; ad_weights := [x00] |};
     events := [] |}.

Definition segmentation_task : OpenVINOTask :=
  {| task_environment := Fixture.environment;
     task_type := ANOMALY_SEGMENTATION;
     config := config Fixture.task;
     normal_label := Some Fixture.normal;
     anomalous_label := Some Fixture.anomalous;
     _base_dir := Some "/templates/padim" |}.

Definition unknown_task : OpenVINOTask :=
  {| task_environment := Fixture.environment;
     task_type := OTHER_TASK "CLASSIFICATION";
     config := config Fixture.task;
     normal_label := Some Fixture.normal;
     anomalous_label := Some Fixture.anomalous;
     _base_dir := Some "/templates/padim" |}.
End InferenceFixture.

(** * Properties *)

(** ** Evaluation on the concrete instance *)

Example task_kind_classification : task_kind ANOMALY_CLASSIFICATION = "classification".
Proof. reflexivity. Qed.

Example readme_member_name : os_path_normpath (os_path_join "." "README.md") = "README.md".
Proof. reflexivity. Qed.

Example frombuffer_one_half :
  np_frombuffer_float32 [x00; x00; x00; x3f] = Some [Float32 1056964608].
Proof. reflexivity. Qed.

Example frombuffer_odd_size : np_frombuffer_float32 [x00; x00; x00; x3f; x00] = None.
Proof. reflexivity. Qed.

Example current_metadata_scalars :
  get_metadata Fixture.ext Fixture.task (Fixture.world_of Fixture.current_model) =
    Ok [("image_threshold", PJson (JFloat 0.5)); ("pixel_threshold", PJson (JFloat 0.25));
        ("min", PJson (JFloat 0)); ("max", PJson (JFloat 2))].
Proof. vm_compute. reflexivity. Qed.

Example legacy_ir_format :
  option_map (dict_get (model_info "mean_values"))
    (match _metadata_in_ir_format Fixture.ext Fixture.task
             (Fixture.world_of Fixture.legacy_model) with
     | Ok extra => Some extra
     | Raise _ => None
     end) = Some (Some (PJson (JStr "127.5 63.75"))).
Proof. vm_compute. reflexivity. Qed.

Example optimize_samples_trace :
  progress_values
    (events (snd (optimize Fixture.ext Fixture.task POT Fixture.samples 1%nat
                    (Some OptimizationParameters_default)
                    (Fixture.world_of Fixture.current_model)))) = [10; 90; 100].
Proof. vm_compute. reflexivity. Qed.

(** Membership of a given string in a given list, decided by evaluation. *)
Ltac decide_membership := apply (bool_decide_unpack _); vm_compute; exact I.

(** ** Dictionaries *)

Section DictFacts.
Context {K V : Type} `{EqDecision K}.

Lemma dict_get_set_eq (k : K) (v : V) d : dict_get k (dict_set k v d) = Some v.
Proof.
  induction d as [|[k' v'] d IH]; simpl.
  - by rewrite decide_True.
  - destruct (decide (k = k')) as [->|Hne]; simpl.
    + by rewrite decide_True.
    + by rewrite decide_False.
Qed.

Lemma dict_get_set_ne (k k' : K) (v : V) d :
  k ≠ k' -> dict_get k' (dict_set k v d) = dict_get k' d.
Proof.
  intros Hne. induction d as [|[k0 v0] d IH]; simpl.
  - rewrite decide_False; [done | congruence].
  - destruct (decide (k = k0)) as [->|Hne0]; simpl.
    + rewrite !decide_False; [done | congruence | congruence].
    + destruct (decide (k' = k0)); [done | apply IH].
Qed.
End DictFacts.

(** ** Metadata resolution *)



















(** ** Precondition failures *)

(** C3.  With any optimization type other than POT, [optimize] raises the
    ValueError at once: the world it leaves, and with it [output_model], the
    task's model and the trace of callbacks, is the one it was called in. *)
Theorem optimize_rejects_other_types E self optimization_type dataset output_model
    optimization_parameters w :
  optimization_type <> POT ->
  optimize E self optimization_type dataset output_model optimization_parameters w =
    (Raise (ValueError "PTQ is the only supported optimization type for OpenVINO models"), w).
Proof.
  intros Hty. unfold optimize. by rewrite bool_decide_false.
Qed.

Lemma optimize_rejects_other_types_witness :
  optimize Fixture.ext Fixture.task NNCF Fixture.samples 1%nat
           (Some OptimizationParameters_default) (Fixture.world_of Fixture.current_model) =
    (Raise (ValueError "PTQ is the only supported optimization type for OpenVINO models"),
     Fixture.world_of Fixture.current_model).
Proof.
  apply (optimize_rejects_other_types Fixture.ext Fixture.task NNCF). discriminate.
Defined.

(** C6.  When the attached model's graph is reported as already quantized,
    [optimize] raises before the quantization call and leaves the world,
    hence [output_model], as it was; once the type check and the dataset
    filter have passed, the error is the RuntimeError of the re-quantization
    check. *)
Theorem optimize_rejects_quantized E self optimization_type dataset output_model
    optimization_parameters w r xml bin ov_model :
  env_model w = Some r ->
  model_adapters (deref w r) !! "openvino.xml" = Some xml ->
  model_adapters (deref w r) !! "openvino.bin" = Some bin ->
  read_model E xml bin = Some ov_model ->
  check_if_quantized E ov_model = true ->
  (exists e,
     optimize E self optimization_type dataset output_model optimization_parameters w =
       (Raise e, w)) /\
  (optimization_type = POT -> is_ok (anomalous_items (items dataset)) = true ->
   optimize E self optimization_type dataset output_model optimization_parameters w =
     (Raise (RuntimeError "Model is already optimized by PTQ"), w)).
Proof.
  intros Hr Hxml Hbin Hread Hq.
  assert (forall calib,
            anomalous_items (items dataset) = Ok calib ->
            optimize E self POT dataset output_model optimization_parameters w =
              (Raise (RuntimeError "Model is already optimized by PTQ"), w)) as Hpot.
  { intros calib Hcalib.
    unfold optimize, read_weights, bind, lift, gets, reads, ret, raise, get_data. simpl.
    rewrite Hcalib, Hr, Hxml, Hbin. simpl. rewrite Hread, Hq. done. }
  split.
  - destruct optimization_type.
    + destruct (anomalous_items (items dataset)) as [calib|e] eqn:Hcalib.
      * eexists. by apply (Hpot calib).
      * exists e. unfold optimize, bind, lift. simpl. by rewrite Hcalib.
    + eexists. unfold optimize. by rewrite bool_decide_false.
  - intros -> Hok.
    destruct (anomalous_items (items dataset)) as [calib|e] eqn:Hcalib; [|done].
    by apply (Hpot calib).
Qed.

Lemma optimize_rejects_quantized_witness :
  optimize Fixture.ext Fixture.task POT Fixture.samples 1%nat
           (Some OptimizationParameters_default) (Fixture.world_of Fixture.quantized_model) =
    (Raise (RuntimeError "Model is already optimized by PTQ"),
     Fixture.world_of Fixture.quantized_model).
Proof.
  apply (optimize_rejects_quantized Fixture.ext Fixture.task POT Fixture.samples 1%nat
           (Some OptimizationParameters_default) (Fixture.world_of Fixture.quantized_model)
           0%nat [x51] [x00] {| ir_xml := [x51]; ir_bin := [x00] |});
    vm_compute; reflexivity.
Defined.

(** C7.  Without an attached model, [deploy] raises its configuration error
    before anything is computed or packed: the world is unchanged, so
    [output_model.exportable_code] is what it was, unset if it was unset. *)
Theorem deploy_requires_model E self output_model w :
  env_model w = None ->
  deploy E self output_model w =
    (Raise (Exception_ "task_environment.model is None. Cannot load weights."), w) /\
  (exportable_code (deref w output_model) = None ->
   exportable_code (deref (snd (deploy E self output_model w)) output_model) = None).
Proof.
  intros Hr.
  assert (deploy E self output_model w =
            (Raise (Exception_ "task_environment.model is None. Cannot load weights."), w)) as H.
  { unfold deploy, bind, gets, raise. by rewrite Hr. }
  split; [done|]. by rewrite H.
Qed.

Lemma deploy_requires_model_witness :
  deploy Fixture.ext Fixture.task 1%nat Fixture.no_model =
    (Raise (Exception_ "task_environment.model is None. Cannot load weights."),
     Fixture.no_model) /\
  (exportable_code (deref Fixture.no_model 1%nat) = None ->
   exportable_code (deref (snd (deploy Fixture.ext Fixture.task 1%nat Fixture.no_model)) 1%nat)
     = None).
Proof.
  apply (deploy_requires_model Fixture.ext Fixture.task 1%nat Fixture.no_model).
  reflexivity.
Defined.

(** ** Construction *)

Lemma first_label_head cond labels label :
  first_label cond labels = Ok label <-> head (List.filter cond labels) = Some label.
Proof.
  unfold first_label. destruct (List.filter cond labels); simpl; split; congruence.
Qed.

Lemma first_label_nil cond labels :
  List.filter cond labels = [] -> first_label cond labels = Raise IndexError.
Proof. unfold first_label. by intros ->. Qed.

(** C10.  Construction needs a non-anomalous and an anomalous label.  If
    either kind is missing from the environment's labels, [__init__] raises:
    once the inference model has loaded, the error is the IndexError of the
    [[0]] subscript on the empty filtered list.  When [__init__] returns,
    [normal_label] is the first non-anomalous label and [anomalous_label] the
    first anomalous label. *)
Theorem init_requires_both_labels E task_environment w :
  (normal_labels (get_labels task_environment) = [] \/
   anomalous_labels (get_labels task_environment) = [] ->
   (exists e w', __init__ E task_environment w = (Raise e, w')) /\
   (forall inference_model w1,
      get_openvino_model E (before_labels E task_environment) w = (Ok inference_model, w1) ->
      __init__ E task_environment w =
        (Raise IndexError, set_inference_model inference_model w1))) /\
  (forall self w',
     __init__ E task_environment w = (Ok self, w') ->
     exists normal anomalous,
       normal_label self = Some normal /\
       anomalous_label self = Some anomalous /\
       head (normal_labels (get_labels task_environment)) = Some normal /\
       head (anomalous_labels (get_labels task_environment)) = Some anomalous).
Proof.
  split.
  - intros Hmissing.
    assert (forall inference_model w1,
      get_openvino_model E (before_labels E task_environment) w = (Ok inference_model, w1) ->
      __init__ E task_environment w =
        (Raise IndexError, set_inference_model inference_model w1)) as Hindex.
    { intros im w1 Hload. unfold __init__, bind, modify, lift, ret. rewrite Hload.
      destruct Hmissing as [Hn|Ha].
      - unfold normal_labels in Hn. by rewrite (first_label_nil _ _ Hn).
      - unfold anomalous_labels in Ha. rewrite (first_label_nil _ _ Ha).
        unfold first_label.
        by destruct (List.filter (fun label => negb (is_anomalous label)) _). }
    split; [|done].
    destruct (get_openvino_model E (before_labels E task_environment) w)
      as [[im|e] w1] eqn:Hload.
    + eexists _, _. by apply Hindex.
    + exists e, w1. unfold __init__, bind. by rewrite Hload.
  - intros self w'. unfold __init__, bind, modify, lift, ret.
    destruct (get_openvino_model E (before_labels E task_environment) w)
      as [[im|e] w1]; [|done].
    destruct (first_label _ _) as [normal|] eqn:Hn; [|done].
    destruct (first_label (fun label => is_anomalous label) _) as [anomalous|] eqn:Ha; [|done].
    intros [= <- <-]. exists normal, anomalous. simpl.
    apply first_label_head in Hn, Ha. done.
Qed.

Lemma init_requires_both_labels_witness :
  exists normal anomalous,
    normal_label Fixture.task = Some normal /\
    anomalous_label Fixture.task = Some anomalous /\
    head (normal_labels (get_labels Fixture.environment)) = Some normal /\
    head (anomalous_labels (get_labels Fixture.environment)) = Some anomalous.
Proof.
  pose proof (init_requires_both_labels Fixture.ext Fixture.environment
                (Fixture.world_of Fixture.current_model)) as [_ Hsuccess].
  apply (Hsuccess Fixture.task
           (set_inference_model {| ad_model := [x3c]; ad_weights := [x00] |}
              (Fixture.world_of Fixture.current_model))).
  vm_compute. reflexivity.
Defined.

(** ** The trace of an optimization *)

Lemma _create_from_legacy_events E self w res w' :
  _create_from_legacy E self w = (res, w') -> events w' = events w.
Proof.
  unfold _create_from_legacy, bind, reads, gets, modify, raise.
  repeat case_match; intros; simplify_eq; done.
Qed.

Lemma get_openvino_model_events E self w res w' :
  get_openvino_model E self w = (res, w') -> events w' = events w.
Proof.
  unfold get_openvino_model, bind, reads, gets, raise.
  destruct (env_model w) as [r|]; [|by intros [= _ <-]].
  destruct (create_model E (deref w r)) as [im|e]; [by intros [= _ <-]|].
  destruct e; try by intros [= _ <-].
  destruct (_create_from_legacy E self w) as [[[]|e] w1] eqn:Hlegacy;
    intros [= _ <-]; by eapply _create_from_legacy_events.
Qed.

Lemma read_weights_pure E self w res w' :
  read_weights E self w = (res, w') -> w' = w.
Proof.
  unfold read_weights, bind, reads, gets, raise, ret.
  repeat case_match; intros; simplify_eq; done.
Qed.

Lemma store_quantized_events E self output_model compressed_model w res w' :
  store_quantized E self output_model compressed_model w = (res, w') ->
  events w' = events w.
Proof.
  unfold store_quantized, bind, reads, modify, raise, ret.
  destruct (get_metadata E self _) as [metadata|e]; [|by intros [= _ <-]].
  destruct (json_dumps E metadata) as [dumped|]; [|by intros [= _ <-]].
  match goal with
  | |- context [get_openvino_model E self ?w0] =>
      destruct (get_openvino_model E self w0) as [[im|e] w1] eqn:Hload
  end; intros [= _ <-]; apply get_openvino_model_events in Hload; done.
Qed.

Lemma update_progress_run optimization_parameters percent w :
  update_progress optimization_parameters percent w =
    (Ok tt, add_events (progress_events optimization_parameters percent) w).
Proof.
  destruct optimization_parameters; simpl; unfold modify, ret, emit, add_events; simpl; [done|].
  rewrite app_nil_r. by destruct w.
Qed.

Lemma optimize_trace E self optimization_type dataset output_model
    optimization_parameters w res w' :
  optimize E self optimization_type dataset output_model optimization_parameters w = (res, w') ->
  exists new,
    events w' = (events w ++ new)%list /\
    optimize_run E self dataset optimization_parameters w res new.
Proof.
  unfold optimize.
  destruct (bool_decide (optimization_type = POT)); simpl.
  2:{ intros [= <- <-]. exists []. rewrite app_nil_r. split; [done | constructor]. }
  unfold bind at 1. unfold lift at 1.
  destruct (anomalous_items (items dataset)) as [calib|e] eqn:Hcalib.
  2:{ intros [= <- <-]. exists []. rewrite app_nil_r. split; [done | constructor]. }
  unfold bind at 1. unfold gets at 1.
  unfold bind at 1.
  destruct (read_weights E self w) as [[ov_model|e] w0] eqn:Hread;
    apply read_weights_pure in Hread as ->.
  2:{ intros [= <- <-]. exists []. rewrite app_nil_r. split; [done | constructor]. }
  unfold bind at 1. rewrite update_progress_run.
  unfold bind at 1. unfold lift at 1.
  destruct (_get_optimization_algorithms_config E self) as [cfg|e] eqn:Hcfg.
  2:{ intros [= <- <-]. eexists. split; [done | constructor]. }
  unfold bind at 1. unfold modify at 1.
  unfold bind at 1.
  change (emit _ _) with
    (emit (quantize_event E dataset calib cfg w)
          (add_events (progress_events optimization_parameters 10) w)).
  destruct (nncf_quantize E ov_model _ _) as [compressed_model|]; unfold ret, raise.
  2:{ intros [= <- <-]. eexists. split; [simpl; by rewrite <- app_assoc|].
      by apply run_quantizing. }
  unfold bind at 1. rewrite update_progress_run.
  unfold bind at 1.
  match goal with
  | |- context [store_quantized E self output_model compressed_model ?w0] =>
      destruct (store_quantized E self output_model compressed_model w0)
        as [[[]|e] w1] eqn:Hstore
  end; apply store_quantized_events in Hstore; simpl in Hstore.
  2:{ intros [= <- <-]. eexists. split; [by rewrite Hstore, <- !app_assoc|].
      by apply run_storing. }
  rewrite update_progress_run. intros [= <- <-]. eexists. split.
  - simpl. by rewrite Hstore, <- !app_assoc.
  - by apply run_completed.
Qed.


Lemma anomalous_items_total l :
  (forall item, item ∈ l -> get_shapes_labels item <> []) ->
  anomalous_items l = Ok (List.filter is_anomalous_item l).
Proof.
  induction l as [|item l IH]; simpl; intros Hlabelled; [done|].
  unfold is_anomalous_item at 1.
  destruct (get_shapes_labels item) as [|label labels] eqn:Hitem.
  - exfalso. apply (Hlabelled item); [left | done].
  - rewrite IH; [done|]. intros item' Hin. apply Hlabelled. by right.
Qed.






(** C5.  A successful [optimize] with progress parameters calls the progress
    callback exactly three times, with 10, 90 and 100 in that order, a
    non-decreasing sequence. *)
Theorem optimize_progress_checkpoints E self optimization_type dataset output_model
    parameters w w' :
  optimize E self optimization_type dataset output_model (Some parameters) w = (Ok tt, w') ->
  exists new,
    events w' = (events w ++ new)%list /\
    progress_values new = [10; 90; 100] /\
    StronglySorted Z.le (progress_values new).
Proof.
  intros Hrun.
  destruct (optimize_trace _ _ _ _ _ _ _ _ _ Hrun) as (new & Hevents & Htrace).
  exists new. split; [done|].
  inversion Htrace; subst. simpl. split; [done|].
  repeat constructor; lia.
Qed.

Lemma optimize_progress_checkpoints_witness :
  exists new,
    events (snd (optimize Fixture.ext Fixture.task POT Fixture.samples 1%nat
                   (Some OptimizationParameters_default)
                   (Fixture.world_of Fixture.current_model))) =
      (events (Fixture.world_of Fixture.current_model) ++ new)%list /\
    progress_values new = [10; 90; 100] /\
    StronglySorted Z.le (progress_values new).
Proof.
  apply (optimize_progress_checkpoints Fixture.ext Fixture.task POT Fixture.samples 1%nat
           OptimizationParameters_default (Fixture.world_of Fixture.current_model)).
  vm_compute. reflexivity.
Defined.

(** ** Deployment *)

Lemma deploy_archive_members E parameters m arch :
  deploy_archive E parameters m = Ok arch ->
  exists xml bin,
    model_adapters m !! "openvino.xml" = Some xml /\
    model_adapters m !! "openvino.bin" = Some bin /\
    ZipFile_namelist arch = deployment_members /\
    ZipFile_read arch "model/model.xml" = Some xml /\
    ZipFile_read arch "model/model.bin" = Some bin.
Proof.
  unfold deploy_archive, get_data, ZipFile_write, ZipFile_writestr.
  destruct (model_adapters m !! "openvino.xml") as [xml|]; [|done].
  destruct (model_adapters m !! "openvino.bin") as [bin|]; [|done]. simpl.
  destruct (json_dumps_indent E parameters) as [config_json|]; [|done]. simpl.
  destruct (demo_file E "requirements.txt") as [requirements|]; [|done]. simpl.
  destruct (demo_file E "LICENSE") as [license|]; [|done]. simpl.
  destruct (demo_file E "demo.py") as [demo|]; [|done]. simpl.
  destruct (demo_file E "README.md") as [readme|]; [|done].
  intros [= <-]. exists xml, bin. repeat split; reflexivity.
Qed.

(** C8.  When [deploy] returns, [output_model.exportable_code] is an archive
    whose members are exactly model/model.xml, model/model.bin,
    model/config.json, python/requirements.txt, python/LICENSE,
    python/demo.py and README.md, and reading model/model.xml and
    model/model.bin back gives the bytes stored under openvino.xml and
    openvino.bin in the task's model. *)
Theorem deploy_archive_round_trip E self output_model w w' :
  deploy E self output_model w = (Ok tt, w') ->
  exists r arch xml bin,
    env_model w = Some r /\
    exportable_code (deref w' output_model) = Some arch /\
    ZipFile_namelist arch = deployment_members /\
    model_adapters (deref w r) !! "openvino.xml" = Some xml /\
    ZipFile_read arch "model/model.xml" = Some xml /\
    model_adapters (deref w r) !! "openvino.bin" = Some bin /\
    ZipFile_read arch "model/model.bin" = Some bin.
Proof.
  unfold deploy, bind, gets, reads, modify, raise.
  destruct (env_model w) as [r|]; [|done].
  destruct (_get_openvino_configuration E self w) as [model_parameters|]; [|done].
  destruct (deploy_archive E _ (deref w r)) as [arch|] eqn:Harch; [|done].
  intros [= <-].
  destruct (deploy_archive_members _ _ _ _ Harch) as (xml & bin & ? & ? & ? & ? & ?).
  exists r, arch, xml, bin. repeat split; try done.
  unfold deref at 1, update_model. simpl. by rewrite lookup_insert_eq.
Qed.

Lemma deploy_archive_round_trip_witness :
  exists r arch xml bin,
    env_model (Fixture.world_of Fixture.current_model) = Some r /\
    exportable_code
      (deref (snd (deploy Fixture.ext Fixture.task 1%nat
                     (Fixture.world_of Fixture.current_model))) 1%nat) = Some arch /\
    ZipFile_namelist arch = deployment_members /\
    model_adapters (deref (Fixture.world_of Fixture.current_model) r) !! "openvino.xml"
      = Some xml /\
    ZipFile_read arch "model/model.xml" = Some xml /\
    model_adapters (deref (Fixture.world_of Fixture.current_model) r) !! "openvino.bin"
      = Some bin /\
    ZipFile_read arch "model/model.bin" = Some bin.
Proof.
  apply (deploy_archive_round_trip Fixture.ext Fixture.task 1%nat
           (Fixture.world_of Fixture.current_model)).
  vm_compute. reflexivity.
Defined.

(** ** Metadata in IR format *)








Lemma add_transforms_app E before after extra_model_data :
  add_transforms E extra_model_data (before ++ after) =
    rbind (add_transforms E extra_model_data before)
          (fun extra_model_data => add_transforms E extra_model_data after).
Proof.
  revert extra_model_data. induction before as [|td before IH]; simpl; intros extra; [done|].
  destruct (add_transform E extra td); simpl; [apply IH | done].
Qed.


Lemma add_transform_frame E extra_model_data transform_dict extra' key :
  add_transform E extra_model_data transform_dict = Ok extra' ->
  key ∉ transform_keys ->
  dict_get (model_info key) extra' = dict_get (model_info key) extra_model_data.
Proof.
  unfold add_transform, transform_keys, model_info. intros Hadd Hkey.
  assert (key <> "mean_values" /\ key <> "scale_values" /\
          key <> "orig_height" /\ key <> "orig_width") as (? & ? & ? & ?)
    by (repeat split; intros ->; apply Hkey; set_solver).
  destruct (json_pop "__class_fullname__" transform_dict) as [[transform td]|]; [|done].
  simpl in Hadd.
  destruct (json_eq_str transform "Normalize").
  - destruct (scaled_by_255 E "mean" td) as [mean|]; [|done]. simpl in Hadd.
    destruct (scaled_by_255 E "std" td) as [std|]; [|done]. simpl in Hadd.
    injection Hadd as <-. rewrite !dict_get_set_ne; [done| |]; congruence.
  - destruct (json_eq_str transform "Resize").
    + destruct (json_getitem "height" td) as [height|]; [|done]. simpl in Hadd.
      destruct (json_getitem "width" td) as [width|]; [|done]. simpl in Hadd.
      injection Hadd as <-. rewrite !dict_get_set_ne; [done| |]; congruence.
    + by injection Hadd as <-.
Qed.

Lemma add_transforms_frame E transforms extra_model_data extra' key :
  add_transforms E extra_model_data transforms = Ok extra' ->
  key ∉ transform_keys ->
  dict_get (model_info key) extra' = dict_get (model_info key) extra_model_data.
Proof.
  revert extra_model_data.
  induction transforms as [|transform_dict rest IH]; simpl; intros extra Hadd Hkey.
  - by injection Hadd as <-.
  - destruct (add_transform E extra transform_dict) as [extra1|] eqn:H1; [|done].
    simpl in Hadd. rewrite (IH extra1 Hadd Hkey).
    by eapply add_transform_frame.
Qed.

Lemma _metadata_in_ir_format_inv E self w extra :
  _metadata_in_ir_format E self w = Ok extra ->
  exists metadata,
    get_metadata E self w = Ok metadata /\ metadata_to_ir_format E metadata = Ok extra.
Proof.
  unfold _metadata_in_ir_format.
  destruct (get_metadata E self w) as [metadata|]; [|done]. by exists metadata.
Qed.




(** * Further properties *)

(** ** Metadata of the current format *)

Lemma dict_get_map_snd {V W} (f : V -> W) (k : string) (d : list (string * V)) :
  dict_get k (map (fun kv => (fst kv, f (snd kv))) d) = f <$> dict_get k d.
Proof.
  induction d as [|[k' v] d IH]; simpl; [done|].
  destruct (decide (k = k')); [done | apply IH].
Qed.

Lemma dict_set_keys {V} (k : string) (v v0 : V) (d : list (string * V)) :
  dict_get k d = Some v0 -> map fst (dict_set k v d) = map fst d.
Proof.
  induction d as [|[k' v'] d IH]; simpl; [done|].
  destruct (decide (k = k')) as [->|]; simpl; [done|].
  intros H. by rewrite IH.
Qed.

Lemma float32_item_at_inv E key j j' :
  float32_item_at E key j = Ok j' ->
  exists d v x,
    j = JDict d /\ dict_get key d = Some v /\ np_float32_item E v = Some x /\
    j' = JDict (dict_set key (JFloat x) d).
Proof.
  unfold float32_item_at. intros H.
  destruct j as [| | | | | |d]; try done. simpl in H. unfold dict_item in H.
  destruct (dict_get key d) as [v|] eqn:Hv; [|done]. simpl in H.
  destruct (np_float32_item E v) as [x|] eqn:Hx; [|done].
  injection H as <-. by exists d, v, x.
Qed.

Lemma _populate_metadata_inv E j j' :
  _populate_metadata E j = Ok j' ->
  exists d d',
    j = JDict d /\ j' = JDict d' /\ map fst d' = map fst d /\
    (forall key, key ∈ legacy_keys ->
       exists v x, dict_get key d = Some v /\ np_float32_item E v = Some x /\
                   dict_get key d' = Some (JFloat x)) /\
    (forall key, key ∉ legacy_keys -> dict_get key d' = dict_get key d).
Proof.
  unfold _populate_metadata. intros H.
  destruct (float32_item_at E "image_threshold" j) as [j1|] eqn:H1; [|done].
  apply float32_item_at_inv in H1 as (d & v1 & x1 & -> & Hv1 & Hx1 & ->). simpl in H.
  destruct (float32_item_at E "pixel_threshold" _) as [j2|] eqn:H2; [|done].
  apply float32_item_at_inv in H2 as (d2 & v2 & x2 & [= <-] & Hv2 & Hx2 & ->). simpl in H.
  destruct (float32_item_at E "min" _) as [j3|] eqn:H3; [|done].
  apply float32_item_at_inv in H3 as (d3 & v3 & x3 & [= <-] & Hv3 & Hx3 & ->). simpl in H.
  apply float32_item_at_inv in H as (d4 & v4 & x4 & [= <-] & Hv4 & Hx4 & ->).
  eexists d, _. split; [done|]. split; [done|].
  pose proof Hv2 as Hv2'. pose proof Hv3 as Hv3'. pose proof Hv4 as Hv4'.
  rewrite !dict_get_set_ne in Hv2' by done.
  rewrite !dict_get_set_ne in Hv3' by done.
  rewrite !dict_get_set_ne in Hv4' by done.
  split; [|split].
  - rewrite (dict_set_keys _ _ _ _ Hv4), (dict_set_keys _ _ _ _ Hv3),
      (dict_set_keys _ _ _ _ Hv2), (dict_set_keys _ _ _ _ Hv1). done.
  - intros key Hkey. unfold legacy_keys in Hkey.
    apply elem_of_cons in Hkey as [->|Hkey].
    { exists v1, x1. rewrite !dict_get_set_ne by done. by rewrite dict_get_set_eq. }
    apply elem_of_cons in Hkey as [->|Hkey].
    { exists v2, x2. rewrite !dict_get_set_ne by done. by rewrite dict_get_set_eq. }
    apply elem_of_cons in Hkey as [->|Hkey].
    { exists v3, x3. rewrite !dict_get_set_ne by done. by rewrite dict_get_set_eq. }
    apply elem_of_cons in Hkey as [->|Hkey]; [|by apply elem_of_nil in Hkey].
    exists v4, x4. by rewrite dict_get_set_eq.
  - intros key Hkey. unfold legacy_keys in Hkey.
    rewrite !dict_get_set_ne; [done|..]; intros <-; apply Hkey; decide_membership.
Qed.

(** X1.  When the [try] block of [get_metadata] succeeds, the stored text
    decodes to a JSON object, and the mapping returned has the same keys in
    the same order: image_threshold, pixel_threshold, min and max hold the
    Python floats that the float32 conversion makes of the stored values, so
    they are scalars, and every other field holds its stored value. *)
Theorem get_metadata_current_fields E self w r :
  env_model w = Some r ->
  is_ok (load_metadata E (deref w r)) = true ->
  exists raw text d metadata,
    model_adapters (deref w r) !! "metadata" = Some raw /\
    bytes_decode E raw = Ok text /\
    json_loads E text = Some (JDict d) /\
    get_metadata E self w = Ok metadata /\
    map fst metadata = map fst d /\
    (forall key, key ∈ legacy_keys ->
       exists v x,
         dict_get key d = Some v /\ np_float32_item E v = Some x /\
         dict_get key metadata = Some (PJson (JFloat x)) /\
         is_scalar (PJson (JFloat x)) = true) /\
    (forall key, key ∉ legacy_keys -> dict_get key metadata = PJson <$> dict_get key d).
Proof.
  intros Hr Hok. unfold get_metadata. rewrite Hr.
  destruct (load_metadata E (deref w r)) as [j|] eqn:Hload; [|done].
  unfold load_metadata, get_data in Hload.
  destruct (model_adapters (deref w r) !! "metadata") as [raw|]; [|done]. simpl in Hload.
  destruct (bytes_decode E raw) as [text|] eqn:Htext; [|done]. simpl in Hload.
  destruct (json_loads E text) as [j0|] eqn:Hj; [|done]. simpl in Hload.
  apply _populate_metadata_inv in Hload as (d & d' & -> & -> & Hkeys & Hfields & Hothers).
  exists raw, text, d. eexists. repeat split; try done.
  - rewrite !map_map. simpl. by rewrite <- Hkeys.
  - intros key Hkey. destruct (Hfields key Hkey) as (v & x & ? & ? & Hx).
    exists v, x. repeat split; try done. rewrite dict_get_map_snd. by rewrite Hx.
  - intros key Hkey. rewrite dict_get_map_snd. by rewrite Hothers.
Qed.

Lemma get_metadata_current_fields_witness :
  exists raw text d metadata,
    model_adapters (deref (Fixture.world_of Fixture.current_model) 0%nat) !! "metadata"
      = Some raw /\
    bytes_decode Fixture.ext raw = Ok text /\
    json_loads Fixture.ext text = Some (JDict d) /\
    get_metadata Fixture.ext Fixture.task (Fixture.world_of Fixture.current_model)
      = Ok metadata /\
    map fst metadata = map fst d /\
    (forall key, key ∈ legacy_keys ->
       exists v x,
         dict_get key d = Some v /\ np_float32_item Fixture.ext v = Some x /\
         dict_get key metadata = Some (PJson (JFloat x)) /\
         is_scalar (PJson (JFloat x)) = true) /\
    (forall key, key ∉ legacy_keys -> dict_get key metadata = PJson <$> dict_get key d).
Proof.
  apply (get_metadata_current_fields Fixture.ext Fixture.task
           (Fixture.world_of Fixture.current_model) 0%nat).
  - reflexivity.
  - vm_compute. reflexivity.
Defined.



(** ** The IR-format metadata as a whole *)

Lemma dict_get_None {K V} `{EqDecision K} (k : K) (d : list (K * V)) :
  dict_get k d = None <-> k ∉ map fst d.
Proof.
  induction d as [|[k' v] d IH]; simpl.
  - split; [intros _; apply not_elem_of_nil | done].
  - destruct (decide (k = k')) as [->|Hne].
    + split; [done|]. intros H. exfalso. apply H. left.
    + rewrite IH. rewrite not_elem_of_cons. split; [by intros ? | by intros [_ ?]].
Qed.

Lemma dict_set_keys_fresh {K V} `{EqDecision K} (k : K) (v : V) (d : list (K * V)) :
  dict_get k d = None -> map fst (dict_set k v d) = (map fst d ++ [k])%list.
Proof.
  induction d as [|[k' v'] d IH]; simpl; [done|].
  destruct (decide (k = k')); [done|]. intros H. simpl. by rewrite IH.
Qed.

Lemma dict_set_keys_present {K V} `{EqDecision K} (k : K) (v : V) (d : list (K * V)) :
  is_Some (dict_get k d) -> map fst (dict_set k v d) = map fst d.
Proof.
  induction d as [|[k' v'] d IH]; simpl; [by intros [? ?]|].
  destruct (decide (k = k')) as [->|]; simpl; [done|].
  intros H. by rewrite IH.
Qed.

Lemma model_info_keys_set key value extra_model_data :
  model_info_keys extra_model_data ->
  model_info_keys (dict_set (model_info key) value extra_model_data).
Proof.
  intros [Hnodup Hall]. split.
  - destruct (dict_get (model_info key) extra_model_data) as [v0|] eqn:Hget.
    + by rewrite dict_set_keys_present.
    + rewrite dict_set_keys_fresh by done.
      apply NoDup_app. split; [done|]. split; [|apply NoDup_singleton].
      intros k Hk Hk'. apply list_elem_of_singleton in Hk' as ->.
      by apply dict_get_None in Hget.
  - clear Hnodup. induction extra_model_data as [|[k' v'] d IH]; simpl.
    + by repeat constructor.
    + apply Forall_cons in Hall as [Hk Hd].
      destruct (decide (model_info key = k')) as [<-|]; constructor; auto.
Qed.

Lemma model_info_keys_copy metadata : model_info_keys (copy_model_info metadata).
Proof.
  unfold copy_model_info.
  assert (forall acc : ExtraModelData,
            model_info_keys acc ->
            model_info_keys
              (fold_left
                 (fun extra_model_data kv =>
                    if decide (fst kv ∈ ["transform"; "min"; "max"]) then extra_model_data
                    else dict_set (model_info (fst kv)) (snd kv) extra_model_data)
                 metadata acc)) as Hfold.
  { induction metadata as [|[k v] metadata IH]; simpl; intros acc Hacc; [done|].
    apply IH. simpl. destruct (decide (k ∈ ["transform"; "min"; "max"])); [done |].
    by apply model_info_keys_set. }
  apply Hfold. split; [apply NoDup_nil_2 | constructor].
Qed.

Lemma model_info_keys_add_transform E extra_model_data transform_dict extra' :
  add_transform E extra_model_data transform_dict = Ok extra' ->
  model_info_keys extra_model_data -> model_info_keys extra'.
Proof.
  unfold add_transform. intros Hadd Hwf.
  destruct (json_pop "__class_fullname__" transform_dict) as [[transform td]|]; [|done].
  simpl in Hadd.
  destruct (json_eq_str transform "Normalize").
  - destruct (scaled_by_255 E "mean" td) as [mean|]; [|done]. simpl in Hadd.
    destruct (scaled_by_255 E "std" td) as [std|]; [|done]. simpl in Hadd.
    injection Hadd as <-. by repeat apply model_info_keys_set.
  - destruct (json_eq_str transform "Resize").
    + destruct (json_getitem "height" td) as [height|]; [|done]. simpl in Hadd.
      destruct (json_getitem "width" td) as [width|]; [|done]. simpl in Hadd.
      injection Hadd as <-. by repeat apply model_info_keys_set.
    + by injection Hadd as <-.
Qed.

Lemma model_info_keys_add_transforms E transforms extra_model_data extra' :
  add_transforms E extra_model_data transforms = Ok extra' ->
  model_info_keys extra_model_data -> model_info_keys extra'.
Proof.
  revert extra_model_data.
  induction transforms as [|td rest IH]; simpl; intros extra Hadd Hwf.
  - by injection Hadd as <-.
  - destruct (add_transform E extra td) as [extra1|] eqn:H1; [|done].
    simpl in Hadd. apply (IH extra1 Hadd). by eapply model_info_keys_add_transform.
Qed.

(** The three stages of [metadata_to_ir_format]. *)
Lemma metadata_to_ir_format_inv E metadata extra :
  metadata_to_ir_format E metadata = Ok extra ->
  exists extra1 extra2,
    match dict_get "transform" metadata with
    | Some transform =>
        exists description transforms_json transforms,
          py_getitem "transform" transform = Ok description /\
          json_getitem "transforms" description = Ok transforms_json /\
          json_iter transforms_json = Ok transforms /\
          add_transforms E (copy_model_info metadata) transforms = Ok extra1
    | None => extra1 = copy_model_info metadata
    end /\
    match dict_get "min" metadata, dict_get "max" metadata with
    | Some min_value, Some max_value =>
        exists scale,
          py_sub E max_value min_value = Ok scale /\
          extra2 = dict_set (model_info "normalization_scale") scale extra1
    | _, _ => extra2 = extra1
    end /\
    extra =
      dict_set (model_info "labels") (PJson (JStr "Normal Anomaly"))
        (dict_set (model_info "model_type") (PJson (JStr "AnomalyDetection"))
           (dict_set (model_info "reverse_input_channels") (PJson (JBool false)) extra2)).
Proof.
  unfold metadata_to_ir_format. intros H.
  match type of H with
  | rbind ?c _ = _ => destruct c as [extra1|] eqn:Hloop; [|done]
  end.
  simpl in H.
  match type of H with
  | rbind ?c _ = _ => destruct c as [extra2|] eqn:Hscale; [|done]
  end.
  simpl in H. injection H as <-.
  exists extra1, extra2. split; [|split; [|done]].
  - destruct (dict_get "transform" metadata) as [transform|]; [|by injection Hloop as <-].
    destruct (py_getitem "transform" transform) as [description|]; [|done]. simpl in Hloop.
    destruct (json_getitem "transforms" description) as [tj|] eqn:Htj; [|done].
    simpl in Hloop.
    destruct (json_iter tj) as [transforms|] eqn:Hts; [|done]. simpl in Hloop.
    by exists description, tj, transforms.
  - destruct (dict_get "min" metadata) as [mn|]; [|by injection Hscale as <-].
    destruct (dict_get "max" metadata) as [mx|]; [|by injection Hscale as <-].
    destruct (py_sub E mx mn) as [scale|]; [|done]. simpl in Hscale.
    injection Hscale as <-. by exists scale.
Qed.

Lemma metadata_to_ir_format_model_info E metadata extra :
  metadata_to_ir_format E metadata = Ok extra ->
  model_info_keys extra /\
  dict_get (model_info "reverse_input_channels") extra = Some (PJson (JBool false)) /\
  dict_get (model_info "model_type") extra = Some (PJson (JStr "AnomalyDetection")) /\
  dict_get (model_info "labels") extra = Some (PJson (JStr "Normal Anomaly")).
Proof.
  intros H. apply metadata_to_ir_format_inv in H as (extra1 & extra2 & H1 & H2 & ->).
  assert (model_info_keys extra1) as Hwf1.
  { destruct (dict_get "transform" metadata) as [transform|].
    - destruct H1 as (? & ? & transforms & _ & _ & _ & Hadd).
      eapply model_info_keys_add_transforms; [done | apply model_info_keys_copy].
    - subst. apply model_info_keys_copy. }
  assert (model_info_keys extra2) as Hwf2.
  { destruct (dict_get "min" metadata); [|by subst].
    destruct (dict_get "max" metadata); [|by subst].
    destruct H2 as (scale & _ & ->). by apply model_info_keys_set. }
  split; [by repeat apply model_info_keys_set|].
  split; [|split].
  - rewrite !dict_get_set_ne by done. apply dict_get_set_eq.
  - rewrite !dict_get_set_ne by done. apply dict_get_set_eq.
  - apply dict_get_set_eq.
Qed.

(** X3.  Whatever the metadata holds, the IR-format mapping has only keys of
    the form [("model_info", field)], no key twice, and it carries the three
    fixed entries reverse_input_channels = False, model_type =
    "AnomalyDetection" and labels = "Normal Anomaly", overriding a metadata
    field of the same name. *)
Theorem metadata_to_ir_format_keys E metadata extra :
  metadata_to_ir_format E metadata = Ok extra ->
  NoDup (map fst extra) /\
  Forall (fun kv => fst (fst kv) = "model_info") extra /\
  dict_get (model_info "reverse_input_channels") extra = Some (PJson (JBool false)) /\
  dict_get (model_info "model_type") extra = Some (PJson (JStr "AnomalyDetection")) /\
  dict_get (model_info "labels") extra = Some (PJson (JStr "Normal Anomaly")).
Proof.
  intros H.
  destruct (metadata_to_ir_format_model_info _ _ _ H) as ([Hnodup Hall] & H1 & H2 & H3).
  by repeat split.
Qed.

Lemma metadata_to_ir_format_keys_witness :
  exists extra,
    metadata_to_ir_format Fixture.ext
      [("labels", PJson (JStr "good bad")); ("task", PJson (JStr "classification"))] = Ok extra /\
    NoDup (map fst extra) /\
    Forall (fun kv => fst (fst kv) = "model_info") extra /\
    dict_get (model_info "reverse_input_channels") extra = Some (PJson (JBool false)) /\
    dict_get (model_info "model_type") extra = Some (PJson (JStr "AnomalyDetection")) /\
    dict_get (model_info "labels") extra = Some (PJson (JStr "Normal Anomaly")).
Proof.
  eexists. split; [vm_compute; reflexivity|].
  apply (metadata_to_ir_format_keys Fixture.ext
           [("labels", PJson (JStr "good bad")); ("task", PJson (JStr "classification"))]).
  vm_compute. reflexivity.
Defined.

Lemma copy_model_info_lookup metadata key :
  NoDup (map fst metadata) ->
  key ∉ ["transform"; "min"; "max"] ->
  dict_get (model_info key) (copy_model_info metadata) = dict_get key metadata.
Proof.
  intros Hnodup Hkey. unfold copy_model_info.
  assert (forall acc : ExtraModelData,
            dict_get (model_info key)
              (fold_left
                 (fun extra_model_data kv =>
                    if decide (fst kv ∈ ["transform"; "min"; "max"]) then extra_model_data
                    else dict_set (model_info (fst kv)) (snd kv) extra_model_data)
                 metadata acc) =
            match dict_get key metadata with
            | Some v => Some v
            | None => dict_get (model_info key) acc
            end) as Hfold.
  { induction metadata as [|[k v] metadata IH]; simpl; intros acc; [done|].
    simpl in Hnodup. apply NoDup_cons in Hnodup as [Hk Hnodup]. rewrite (IH Hnodup).
    destruct (decide (key = k)) as [->|Hne].
    - apply dict_get_None in Hk. rewrite Hk.
      rewrite decide_False by done. apply dict_get_set_eq.
    - destruct (dict_get key metadata); [done|].
      destruct (decide (k ∈ _)); [done|].
      rewrite dict_get_set_ne; [done|]. unfold model_info. congruence. }
  rewrite Hfold. by destruct (dict_get key metadata).
Qed.

(** X4.  Every metadata field other than transform, min and max, and other
    than the eight names written afterwards, is copied unchanged under
    [("model_info", field)], and nothing else appears under such a name. *)
Theorem metadata_to_ir_format_copies E metadata extra key :
  metadata_to_ir_format E metadata = Ok extra ->
  NoDup (map fst metadata) ->
  key ∉ ["transform"; "min"; "max"] ->
  key ∉ written_keys ->
  dict_get (model_info key) extra = dict_get key metadata.
Proof.
  intros H Hnodup Hskip Hwritten.
  apply metadata_to_ir_format_inv in H as (extra1 & extra2 & H1 & H2 & ->).
  assert (forall name, name ∈ written_keys -> model_info name <> model_info key) as Hne.
  { intros name Hname [= ->]. done. }
  rewrite !dict_get_set_ne by (apply Hne; decide_membership).
  assert (dict_get (model_info key) extra2 = dict_get (model_info key) extra1) as ->.
  { destruct (dict_get "min" metadata); [|by subst].
    destruct (dict_get "max" metadata); [|by subst].
    destruct H2 as (scale & _ & ->).
    rewrite dict_get_set_ne; [done|]. apply Hne. decide_membership. }
  assert (key ∉ transform_keys) as Hfresh.
  { intros Hin. apply Hwritten. unfold transform_keys, written_keys in *.
    repeat (apply elem_of_cons in Hin as [->|Hin]; [decide_membership|]).
    by apply elem_of_nil in Hin. }
  destruct (dict_get "transform" metadata) as [transform|].
  - destruct H1 as (? & ? & transforms & _ & _ & _ & Hadd).
    rewrite (add_transforms_frame _ _ _ _ _ Hadd Hfresh).
    by apply copy_model_info_lookup.
  - subst. by apply copy_model_info_lookup.
Qed.

Lemma metadata_to_ir_format_copies_witness :
  exists metadata extra,
    get_metadata Fixture.ext Fixture.task (Fixture.world_of Fixture.legacy_model) = Ok metadata /\
    metadata_to_ir_format Fixture.ext metadata = Ok extra /\
    dict_get (model_info "image_threshold") extra = dict_get "image_threshold" metadata.
Proof.
  eexists _, _. split; [vm_compute; reflexivity|]. split; [vm_compute; reflexivity|].
  eapply (metadata_to_ir_format_copies Fixture.ext).
  - vm_compute. reflexivity.
  - repeat (apply NoDup_cons; split; [decide_membership|]). apply NoDup_nil_2.
  - decide_membership.
  - decide_membership.
Defined.

(** X5.  A transform description without a class name is not skipped: the
    whole conversion raises the [KeyError] of the [pop], once the transforms
    before it have been processed. *)
Theorem transform_without_class_raises E metadata transform description transforms
    before d after extra0 :
  dict_get "transform" metadata = Some transform ->
  py_getitem "transform" transform = Ok description ->
  json_getitem "transforms" description = Ok transforms ->
  json_iter transforms = Ok (before ++ JDict d :: after)%list ->
  add_transforms E (copy_model_info metadata) before = Ok extra0 ->
  dict_get "__class_fullname__" d = None ->
  metadata_to_ir_format E metadata = Raise (KeyError "__class_fullname__").
Proof.
  intros Ht Hd Hts Hiter Hbefore Hclass. unfold metadata_to_ir_format.
  rewrite Ht, Hd. simpl. rewrite Hts. simpl. rewrite Hiter. simpl.
  rewrite add_transforms_app, Hbefore. simpl.
  unfold add_transform, json_pop. by rewrite Hclass.
Qed.

Lemma transform_without_class_raises_witness :
  metadata_to_ir_format Fixture.ext
    [("transform",
      PJson (JDict [("transform",
                     JDict [("transforms",
                             JList [Fixture.resize; JDict [("p", JFloat 1)]])])]))] =
    Raise (KeyError "__class_fullname__").
Proof.
  eapply (transform_without_class_raises Fixture.ext _ _ _ _ [Fixture.resize] [("p", JFloat 1%float)] []);
    vm_compute; reflexivity.
Defined.

(** ** The exported configuration *)

Lemma string_app_cons c (s t : string) : (String c s ++ t = String c (s ++ t))%string.
Proof. reflexivity. Qed.

Lemma string_app_nil_r (s : string) : (s ++ EmptyString = s)%string.
Proof. induction s as [|c s IH]; [done|]. by rewrite string_app_cons, IH. Qed.

Lemma string_app_assoc (a b c : string) : ((a ++ b) ++ c = a ++ (b ++ c))%string.
Proof. induction a as [|x a IH]; [done|]. by rewrite !string_app_cons, IH. Qed.

Lemma string_rev_app_app (s t : string) : (String.rev_app s t = String.rev s ++ t)%string.
Proof.
  revert t. induction s as [|a s IH]; intros t; [done|].
  unfold String.rev. simpl. rewrite (IH (String a t)), (IH (String a EmptyString)).
  by rewrite string_app_assoc.
Qed.

Lemma string_rev_cons c (s : string) :
  (String.rev (String c s) = String.rev s ++ String c EmptyString)%string.
Proof. unfold String.rev at 1. simpl. apply string_rev_app_app. Qed.

Lemma str_split_aux_field sep acc s :
  free_of sep s -> str_split_aux sep acc s = [(String.rev acc ++ s)%string].
Proof.
  revert acc. induction s as [|c s IH]; intros acc Hfree.
  - simpl. by rewrite string_app_nil_r.
  - apply Forall_cons in Hfree as [Hc Hfree].
    change (str_split_aux sep acc (String c s))
      with (if decide (c = sep) then String.rev acc :: str_split_aux sep EmptyString s
            else str_split_aux sep (String c acc) s).
    rewrite decide_False by done. rewrite (IH _ Hfree).
    by rewrite string_rev_cons, string_app_assoc.
Qed.

Lemma str_split_aux_sep sep acc s rest :
  free_of sep s ->
  str_split_aux sep acc (s ++ String sep rest) =
    (String.rev acc ++ s)%string :: str_split_aux sep EmptyString rest.
Proof.
  revert acc. induction s as [|c s IH]; intros acc Hfree.
  - change (str_split_aux sep acc (EmptyString ++ String sep rest))
      with (if decide (sep = sep) then String.rev acc :: str_split_aux sep EmptyString rest
            else str_split_aux sep (String sep acc) rest).
    rewrite decide_True by done. by rewrite string_app_nil_r.
  - apply Forall_cons in Hfree as [Hc Hfree].
    change (str_split_aux sep acc (String c s ++ String sep rest))
      with (if decide (c = sep)
            then String.rev acc :: str_split_aux sep EmptyString (s ++ String sep rest)
            else str_split_aux sep (String c acc) (s ++ String sep rest)).
    rewrite decide_False by done. rewrite (IH _ Hfree).
    by rewrite string_rev_cons, string_app_assoc.
Qed.

(** Splitting what was joined gives the fields back. *)
Lemma str_split_join sep (l : list string) :
  l <> [] -> Forall (free_of sep) l ->
  str_split sep (str_join (String sep EmptyString) l) = l.
Proof.
  unfold str_split. induction l as [|s l IH]; [done|]. intros _ Hfree.
  apply Forall_cons in Hfree as [Hs Hl].
  destruct l as [|s' l].
  - simpl. by rewrite str_split_aux_field.
  - change (str_join (String sep EmptyString) (s :: s' :: l))
      with (s ++ String sep (str_join (String sep EmptyString) (s' :: l)))%string.
    rewrite str_split_aux_sep by done.
    f_equal. by apply IH.
Qed.

Lemma add_configuration_frame E configuration entry configuration' k :
  add_configuration E configuration entry = Ok configuration' ->
  k <> configuration_key (fst entry) ->
  dict_get k configuration' = dict_get k configuration.
Proof.
  unfold add_configuration, configuration_key. intros Hadd Hk.
  destruct (decide ((fst entry).2 = "labels")).
  - destruct (snd entry) as [[| | | |value| |]|]; try done.
    injection Hadd as <-. by rewrite dict_get_set_ne.
  - destruct (decide _).
    + destruct (snd entry) as [[| | | |value| |]|]; try done.
      destruct (result_map _ _) as [floats|]; [|done]. simpl in Hadd.
      injection Hadd as <-. by rewrite dict_get_set_ne.
    + injection Hadd as <-. by rewrite dict_get_set_ne.
Qed.

Lemma add_configurations_frame E entries configuration configuration' k :
  add_configurations E configuration entries = Ok configuration' ->
  (forall entry, entry ∈ entries -> k <> configuration_key (fst entry)) ->
  dict_get k configuration' = dict_get k configuration.
Proof.
  revert configuration.
  induction entries as [|entry rest IH]; simpl; intros configuration Hadd Hk.
  - by injection Hadd as <-.
  - destruct (add_configuration E configuration entry) as [c1|] eqn:H1; [|done].
    simpl in Hadd. rewrite (IH c1 Hadd); [|intros e He; apply Hk; by right].
    eapply add_configuration_frame; [done|]. apply Hk. by left.
Qed.

Lemma add_configurations_app E before after configuration :
  add_configurations E configuration (before ++ after)%list =
    rbind (add_configurations E configuration before)
          (fun configuration => add_configurations E configuration after).
Proof.
  revert configuration. induction before as [|e before IH]; simpl; intros c; [done|].
  destruct (add_configuration E c e); simpl; [apply IH | done].
Qed.

Lemma dict_get_elem_of {K V} `{EqDecision K} (k : K) (v : V) (d : list (K * V)) :
  dict_get k d = Some v -> (k, v) ∈ d.
Proof.
  induction d as [|[k' v'] d IH]; simpl; [done|].
  destruct (decide (k = k')) as [->|]; [intros [= ->]; left | intros H; right; auto].
Qed.

(** In a mapping with [model_info] keys, the entries after a given one are
    stored under other configuration keys, the modelapi_labels alias apart. *)
Lemma later_entries_other_keys (before after : ExtraModelData) key value :
  model_info_keys (before ++ (model_info key, value) :: after)%list ->
  forall entry, entry ∈ after -> snd (fst entry) <> key.
Proof.
  intros [Hnodup Hall] entry Hentry Hkey.
  rewrite map_app in Hnodup. apply NoDup_app in Hnodup as (_ & _ & Hnodup).
  simpl in Hnodup. apply NoDup_cons in Hnodup as [Hfresh _].
  apply Hfresh. apply list_elem_of_fmap. exists entry. split; [|done].
  rewrite Forall_forall in Hall.
  assert (fst (fst entry) = "model_info") as Hfst.
  { apply Hall. apply elem_of_app. right. by right. }
  destruct entry as [[a b] v]. simpl in *. by subst.
Qed.

Lemma _get_openvino_configuration_inv E self w configuration :
  _get_openvino_configuration E self w = Ok configuration ->
  exists extra,
    _metadata_in_ir_format E self w = Ok extra /\
    model_info_keys extra /\
    dict_get (model_info "labels") extra = Some (PJson (JStr "Normal Anomaly")) /\
    add_configurations E
      [("labels", PJson (LabelSchemaMapper_forward E (label_schema (task_environment self))))]
      extra = Ok configuration.
Proof.
  unfold _get_openvino_configuration. intros H.
  destruct (env_model w); [|done].
  destruct (_metadata_in_ir_format E self w) as [extra|] eqn:Hextra; [|done].
  exists extra. split; [done|].
  apply _metadata_in_ir_format_inv in Hextra as (metadata & _ & Hir).
  apply metadata_to_ir_format_model_info in Hir as (? & _ & _ & ?).
  split; [done|]. by split.
Qed.

(** X6.  In the exported configuration, "labels" is always the OTX label
    schema, never the model-API label string, which goes to
    "modelapi_labels" as the list Normal, Anomaly (unless the metadata has a
    field of that very name); every other IR-format entry except mean_values
    and scale_values is exported under its field name with its value. *)
Theorem _get_openvino_configuration_entries E self w configuration :
  _get_openvino_configuration E self w = Ok configuration ->
  exists extra,
    _metadata_in_ir_format E self w = Ok extra /\
    dict_get "labels" configuration =
      Some (PJson (LabelSchemaMapper_forward E (label_schema (task_environment self)))) /\
    (dict_get (model_info "modelapi_labels") extra = None ->
     dict_get "modelapi_labels" configuration =
       Some (PJson (JList [JStr "Normal"; JStr "Anomaly"]))) /\
    (forall key,
       key ∉ ["labels"; "modelapi_labels"; "mean_values"; "scale_values"] ->
       dict_get key configuration = dict_get (model_info key) extra).
Proof.
  intros H. apply _get_openvino_configuration_inv in H as (extra & Hextra & Hwf & Hlabels & Hadd).
  exists extra. split; [done|]. split; [|split].
  - rewrite (add_configurations_frame _ _ _ _ "labels" Hadd); [done|].
    intros entry _. unfold configuration_key. by destruct (decide _).
  - intros Hfree.
    apply dict_get_elem_of, list_elem_of_split in Hlabels as (before & after & ->).
    rewrite add_configurations_app in Hadd.
    destruct (add_configurations E _ before) as [c1|]; [|done]. simpl in Hadd.
    destruct (add_configurations E _ after) as [c2|] eqn:Hafter; [|done].
    injection Hadd as <-.
    rewrite (add_configurations_frame _ _ _ _ "modelapi_labels" Hafter).
    + unfold add_configuration. simpl. apply dict_get_set_eq.
    + intros entry Hentry. unfold configuration_key.
      destruct (decide _) as [Heq|Hne].
      * by destruct (later_entries_other_keys _ _ _ _ Hwf entry Hentry).
      * intros Heq. apply dict_get_None in Hfree. apply Hfree.
        apply list_elem_of_fmap. exists entry. split.
        -- destruct Hwf as [_ Hall]. rewrite Forall_forall in Hall.
           assert (fst (fst entry) = "model_info") as Hfst
             by (apply Hall; apply elem_of_app; right; by right).
           destruct entry as [[a b] v]. simpl in *. by subst.
        -- apply elem_of_app. right. by right.
  - intros key Hkey.
    assert (key <> "labels" /\ key <> "modelapi_labels" /\
            key <> "mean_values" /\ key <> "scale_values") as (? & ? & ? & ?)
      by (repeat split; intros ->; apply Hkey; decide_membership).
    destruct (dict_get (model_info key) extra) as [value|] eqn:Hvalue.
    + apply dict_get_elem_of, list_elem_of_split in Hvalue as (before & after & ->).
      rewrite add_configurations_app in Hadd.
      destruct (add_configurations E _ before) as [c1|]; [|done]. simpl in Hadd.
      destruct (add_configuration E c1 _) as [c2|] eqn:Hentry; [|done]. simpl in Hadd.
      rewrite (add_configurations_frame _ _ _ _ key Hadd).
      * unfold add_configuration in Hentry. simpl in Hentry.
        rewrite decide_False in Hentry by done.
        destruct (decide (key ∈ _)) as [Hin|_] in Hentry.
        { exfalso. apply Hkey. repeat (apply elem_of_cons in Hin as [->|Hin]; [decide_membership|]).
          by apply elem_of_nil in Hin. }
        injection Hentry as <-. apply dict_get_set_eq.
      * intros entry Hin. unfold configuration_key.
        destruct (decide _); [done|].
        intros Heq. by destruct (later_entries_other_keys _ _ _ _ Hwf entry Hin).
    + rewrite (add_configurations_frame _ _ _ _ key Hadd).
      * simpl. by rewrite decide_False.
      * intros entry Hin. unfold configuration_key.
        destruct (decide _); [done|]. intros ->.
        apply dict_get_None in Hvalue. apply Hvalue.
        apply list_elem_of_fmap. exists entry. split; [|done].
        destruct Hwf as [_ Hall]. rewrite Forall_forall in Hall.
        pose proof (Hall entry Hin) as Hfst.
        destruct entry as [[a b] v]. simpl in *. by subst.
Qed.

Lemma _get_openvino_configuration_entries_witness :
  exists configuration,
    _get_openvino_configuration Fixture.ext Fixture.task
      (Fixture.world_of Fixture.current_model) = Ok configuration /\
    dict_get "labels" configuration = Some (PJson (JDict [])) /\
    dict_get "image_threshold" configuration = Some (PJson (JFloat 0.5)).
Proof.
  eexists. split; [vm_compute; reflexivity|].
  edestruct (_get_openvino_configuration_entries Fixture.ext Fixture.task
               (Fixture.world_of Fixture.current_model))
    as (extra & Hextra & Hlabels & _ & Hother); [vm_compute; reflexivity|].
  split; [exact Hlabels|].
  rewrite (Hother "image_threshold") by decide_membership.
  vm_compute in Hextra. injection Hextra as <-. reflexivity.
Defined.

Lemma result_map_float_of_str E (values : list float) :
  (forall x, x ∈ values -> float_of_str E (float_str E x) = Some x) ->
  result_map
    (fun x => match float_of_str E x with
              | Some f => Ok (JFloat f)
              | None => Raise (ValueError "could not convert string to float")
              end)
    (map (float_str E) values) = Ok (map JFloat values).
Proof.
  induction values as [|x values IH]; simpl; intros Hparse; [done|].
  rewrite (Hparse x) by left. simpl. rewrite IH; [done|].
  intros y Hy. apply Hparse. by right.
Qed.

(** X7.  What [_serialize_list] wrote, the configuration reads back: when
    [str] of a float contains no space and [float] parses it back to the same
    float, the exported mean_values (or scale_values) is the list of the
    serialised numbers, provided there is at least one. *)
Theorem _get_openvino_configuration_reads_back E self w configuration extra key values :
  _get_openvino_configuration E self w = Ok configuration ->
  _metadata_in_ir_format E self w = Ok extra ->
  key ∈ ["mean_values"; "scale_values"] ->
  dict_get (model_info key) extra = Some (PJson (JStr (_serialize_list E values))) ->
  values <> [] ->
  (forall x, x ∈ values ->
     free_of " " (float_str E x) /\ float_of_str E (float_str E x) = Some x) ->
  dict_get key configuration = Some (PJson (JList (map JFloat values))).
Proof.
  intros H Hextra Hkey Hvalue Hne Hstr.
  apply _get_openvino_configuration_inv in H as (extra' & Hextra' & Hwf & _ & Hadd).
  rewrite Hextra in Hextra'. injection Hextra' as <-.
  assert (key <> "labels") as Hnl.
  { intros ->. repeat (apply elem_of_cons in Hkey as [Hkey|Hkey]; [done|]).
    by apply elem_of_nil in Hkey. }
  apply dict_get_elem_of, list_elem_of_split in Hvalue as (before & after & ->).
  rewrite add_configurations_app in Hadd.
  destruct (add_configurations E _ before) as [c1|]; [|done]. simpl in Hadd.
  destruct (add_configuration E c1 _) as [c2|] eqn:Hentry; [|done]. simpl in Hadd.
  rewrite (add_configurations_frame _ _ _ _ key Hadd).
  - unfold add_configuration in Hentry. simpl in Hentry.
    rewrite decide_False in Hentry by done.
    rewrite decide_True in Hentry by done.
    unfold _serialize_list in Hentry.
    rewrite (str_split_join " "%char) in Hentry.
    + rewrite result_map_float_of_str in Hentry by (intros x Hx; by apply Hstr).
      simpl in Hentry. injection Hentry as <-. apply dict_get_set_eq.
    + by destruct values.
    + apply Forall_forall. intros s Hs.
      apply list_elem_of_fmap in Hs as (x & -> & Hx). by apply Hstr.
  - intros entry Hin. unfold configuration_key.
    destruct (decide _) as [Heq|_].
    + intros ->. repeat (apply elem_of_cons in Hkey as [Hkey|Hkey]; [done|]).
      by apply elem_of_nil in Hkey.
    + intros Heq. by destruct (later_entries_other_keys _ _ _ _ Hwf entry Hin).
Qed.

Lemma _get_openvino_configuration_reads_back_witness :
  exists configuration,
    _get_openvino_configuration ParsingFixture.parsing_ext Fixture.task
      (Fixture.world_of Fixture.legacy_model) = Ok configuration /\
    dict_get "mean_values" configuration =
      Some (PJson (JList (map JFloat [127.5; 63.75]%float))).
Proof.
  eexists. split; [vm_compute; reflexivity|].
  eapply (_get_openvino_configuration_reads_back ParsingFixture.parsing_ext Fixture.task
            (Fixture.world_of Fixture.legacy_model) _ _ "mean_values" [127.5; 63.75]%float).
  - vm_compute. reflexivity.
  - vm_compute. reflexivity.
  - decide_membership.
  - vm_compute. reflexivity.
  - done.
  - intros x Hx.
    repeat (apply elem_of_cons in Hx as [->|Hx];
            [split; [decide_membership | reflexivity]|]).
    by apply elem_of_nil in Hx.
Defined.

(** ** Deployment, once more *)

Lemma deref_update_model_eq r f w : deref (update_model r f w) r = f (deref w r).
Proof. unfold deref at 1, update_model. simpl. by rewrite lookup_insert_eq. Qed.

Lemma deref_update_model_ne r r' f w : r <> r' -> deref (update_model r f w) r' = deref w r'.
Proof.
  intros Hne. unfold deref at 1, update_model. simpl. by rewrite lookup_insert_ne.
Qed.

(** X8.  [deploy] is all or nothing, and it writes one attribute: a failing
    call leaves the world as it was; a successful call differs from it only
    in [output_model.exportable_code], so no stored blob, no format stamp, no
    other artifact, neither the task's model reference nor the trace changes. *)
Theorem deploy_writes_only_exportable_code E self output_model w res w' :
  deploy E self output_model w = (res, w') ->
  (forall e, res = Raise e -> w' = w) /\
  env_model w' = env_model w /\
  inference_model w' = inference_model w /\
  events w' = events w /\
  forall r,
    model_adapters (deref w' r) = model_adapters (deref w r) /\
    model_format (deref w' r) = model_format (deref w r) /\
    optimization_type (deref w' r) = optimization_type (deref w r) /\
    optimization_methods (deref w' r) = optimization_methods (deref w r) /\
    precision (deref w' r) = precision (deref w r) /\
    (r <> output_model -> deref w' r = deref w r).
Proof.
  unfold deploy, bind, gets, reads, modify, raise.
  destruct (env_model w) as [r0|] eqn:Hr.
  2:{ intros [= <- <-]. by repeat split. }
  destruct (_get_openvino_configuration E self w) as [model_parameters|].
  2:{ intros [= <- <-]. by repeat split. }
  destruct (deploy_archive E _ (deref w r0)) as [arch|].
  2:{ intros [= <- <-]. by repeat split. }
  intros [= <- <-]. split; [done|]. repeat split; try done.
  all: destruct (decide (output_model = r)) as [->|Hne];
    [by rewrite deref_update_model_eq | by rewrite deref_update_model_ne].
Qed.

Lemma deploy_writes_only_exportable_code_witness :
  model_adapters
    (deref (snd (deploy Fixture.ext Fixture.task 0%nat
                   (Fixture.world_of Fixture.current_model))) 0%nat) =
    model_adapters (deref (Fixture.world_of Fixture.current_model) 0%nat).
Proof.
  edestruct (deploy_writes_only_exportable_code Fixture.ext Fixture.task 0%nat
               (Fixture.world_of Fixture.current_model)) as (_ & _ & _ & _ & Hframe).
  - apply surjective_pairing.
  - apply (Hframe 0%nat).
Defined.

(** X9.  The members of the archive besides the two model files: config.json
    is the indented JSON text of the parameters (type of model
    "AnomalyDetection", the upper-cased task type as converter type, the
    exported configuration as model parameters), and the four auxiliary
    members are the files of the demo package, byte for byte. *)
Theorem deploy_archive_auxiliary_members E self output_model w w' :
  deploy E self output_model w = (Ok tt, w') ->
  exists arch configuration text,
    exportable_code (deref w' output_model) = Some arch /\
    _get_openvino_configuration E self w = Ok configuration /\
    json_dumps_indent E
      {| type_of_model := "AnomalyDetection";
         converter_type := str_upper (str_lower (TaskType_str (task_type self)));
         model_parameters := configuration |} = Some text /\
    ZipFile_read arch "model/config.json" = Some (str_encode text) /\
    ZipFile_read arch "python/requirements.txt" = demo_file E "requirements.txt" /\
    ZipFile_read arch "python/LICENSE" = demo_file E "LICENSE" /\
    ZipFile_read arch "python/demo.py" = demo_file E "demo.py" /\
    ZipFile_read arch "README.md" = demo_file E "README.md".
Proof.
  unfold deploy, bind, gets, reads, modify, raise.
  destruct (env_model w) as [r|]; [|done].
  destruct (_get_openvino_configuration E self w) as [configuration|]; [|done].
  destruct (deploy_archive E _ (deref w r)) as [arch|] eqn:Harch; [|done].
  intros [= <-]. rewrite deref_update_model_eq. simpl.
  unfold deploy_archive, get_data, ZipFile_write, ZipFile_writestr in Harch.
  destruct (model_adapters (deref w r) !! "openvino.xml") as [xml|]; [|done].
  destruct (model_adapters (deref w r) !! "openvino.bin") as [bin|]; [|done].
  simpl in Harch.
  destruct (json_dumps_indent E _) as [text|] eqn:Htext; [|done]. simpl in Harch.
  destruct (demo_file E "requirements.txt") as [requirements|]; [|done]. simpl in Harch.
  destruct (demo_file E "LICENSE") as [license|]; [|done]. simpl in Harch.
  destruct (demo_file E "demo.py") as [demo|]; [|done]. simpl in Harch.
  destruct (demo_file E "README.md") as [readme|]; [|done].
  injection Harch as <-. eexists _, configuration, text.
  repeat split; try done.
Qed.

Lemma deploy_archive_auxiliary_members_witness :
  exists arch configuration text,
    exportable_code
      (deref (snd (deploy Fixture.ext Fixture.task 1%nat
                     (Fixture.world_of Fixture.current_model))) 1%nat) = Some arch /\
    _get_openvino_configuration Fixture.ext Fixture.task
      (Fixture.world_of Fixture.current_model) = Ok configuration /\
    json_dumps_indent Fixture.ext
      {| type_of_model := "AnomalyDetection";
         converter_type := str_upper (str_lower (TaskType_str (task_type Fixture.task)));
         model_parameters := configuration |} = Some text /\
    ZipFile_read arch "model/config.json" = Some (str_encode text) /\
    ZipFile_read arch "python/requirements.txt" = demo_file Fixture.ext "requirements.txt" /\
    ZipFile_read arch "python/LICENSE" = demo_file Fixture.ext "LICENSE" /\
    ZipFile_read arch "python/demo.py" = demo_file Fixture.ext "demo.py" /\
    ZipFile_read arch "README.md" = demo_file Fixture.ext "README.md".
Proof.
  apply (deploy_archive_auxiliary_members Fixture.ext Fixture.task 1%nat
           (Fixture.world_of Fixture.current_model)).
  vm_compute. reflexivity.
Defined.

(** ** Loading the inference model *)

Lemma _create_from_legacy_inv E self w res w' :
  _create_from_legacy E self w = (res, w') ->
  (w' = w /\ res <> Ok tt) \/
  exists r extra xml bin,
    env_model w = Some r /\
    _metadata_in_ir_format E self w = Ok extra /\
    model_adapters (deref w r) !! "openvino.xml" = Some xml /\
    model_adapters (deref w r) !! "openvino.bin" = Some bin /\
    res = Ok tt /\
    w' = update_model r (set_data "openvino.bin" bin)
           (update_model r
              (set_data "openvino.xml"
                 (embed_ir_model_data E xml
                    (map (fun kv => (fst kv, tolist E (snd kv))) extra))) w).
Proof.
  unfold _create_from_legacy, bind, reads, gets, modify, raise, get_data.
  destruct (_metadata_in_ir_format E self w) as [extra|]; [|intros [= <- <-]; by left].
  destruct (env_model w) as [r|]; [|intros [= <- <-]; by left].
  destruct (model_adapters (deref w r) !! "openvino.xml") as [xml|] eqn:Hxml;
    [|intros [= <- <-]; by left].
  destruct (model_adapters (deref w r) !! "openvino.bin") as [bin|] eqn:Hbin;
    [|intros [= <- <-]; by left].
  intros [= <- <-]. right. by exists r, extra, xml, bin.
Qed.

Lemma model_adapters_set_data key data m :
  model_adapters (set_data key data m) = <[key := data]> (model_adapters m).
Proof. done. Qed.

(** The store of the task's model after a migration. *)
Lemma migrated_store r xml' bin w :
  model_adapters (deref w r) !! "openvino.bin" = Some bin ->
  model_adapters
    (deref (update_model r (set_data "openvino.bin" bin)
              (update_model r (set_data "openvino.xml" xml') w)) r) =
    <["openvino.xml" := xml']> (model_adapters (deref w r)).
Proof.
  intros Hbin. rewrite !deref_update_model_eq, !model_adapters_set_data.
  apply insert_id. by rewrite lookup_insert_ne.
Qed.

Lemma get_openvino_model_preserves E self w res w' :
  get_openvino_model E self w = (res, w') ->
  env_model w' = env_model w /\
  inference_model w' = inference_model w /\
  events w' = events w /\
  forall r,
    (env_model w <> Some r -> deref w' r = deref w r) /\
    (forall key, key <> "openvino.xml" ->
       model_adapters (deref w' r) !! key = model_adapters (deref w r) !! key) /\
    model_format (deref w' r) = model_format (deref w r) /\
    optimization_type (deref w' r) = optimization_type (deref w r) /\
    optimization_methods (deref w' r) = optimization_methods (deref w r) /\
    precision (deref w' r) = precision (deref w r) /\
    exportable_code (deref w' r) = exportable_code (deref w r).
Proof.
  unfold get_openvino_model, bind, reads, gets, raise.
  destruct (env_model w) as [r0|] eqn:Hr0; [|intros [= <- <-]; by repeat split].
  assert (forall res w1,
            _create_from_legacy E self w = (res, w1) ->
            env_model w1 = env_model w /\
            inference_model w1 = inference_model w /\
            events w1 = events w /\
            forall r,
              (env_model w <> Some r -> deref w1 r = deref w r) /\
              (forall key, key <> "openvino.xml" ->
                 model_adapters (deref w1 r) !! key = model_adapters (deref w r) !! key) /\
              model_format (deref w1 r) = model_format (deref w r) /\
              optimization_type (deref w1 r) = optimization_type (deref w r) /\
              optimization_methods (deref w1 r) = optimization_methods (deref w r) /\
              precision (deref w1 r) = precision (deref w r) /\
              exportable_code (deref w1 r) = exportable_code (deref w r)) as Hlegacy.
  { intros res0 w1 Hrun.
    apply _create_from_legacy_inv in Hrun
      as [[-> _]|(r1 & extra & xml & bin & Hr1 & _ & _ & Hbin & _ & ->)];
      [by repeat split|].
    split; [done|]. split; [done|]. split; [done|]. intros r.
    destruct (decide (r1 = r)) as [->|Hne].
    - split; [by intros []|]. split.
      + intros key Hkey. rewrite migrated_store by done. by rewrite lookup_insert_ne.
      + by rewrite !deref_update_model_eq.
    - rewrite !deref_update_model_ne by done. by repeat split. }
  destruct (create_model E (deref w r0)) as [im|e]; [intros [= <- <-]; by repeat split|].
  destruct e; try (intros [= <- <-]; by repeat split).
  destruct (_create_from_legacy E self w) as [[[]|e] w1] eqn:Hrun;
    intros [= <- <-]; rewrite <- Hr0; by eapply Hlegacy.
Qed.

(** X10.  Loading the inference model may migrate a legacy artifact, and that
    is all it does to the world: whatever the outcome, the task keeps its
    model reference, other artifacts are untouched, and in the task's model
    only the blob under openvino.xml can differ; the weights, every other
    blob, the stamps and the exportable code stay as they were. *)
Theorem get_openvino_model_frame E self w res w' :
  get_openvino_model E self w = (res, w') ->
  env_model w' = env_model w /\
  inference_model w' = inference_model w /\
  events w' = events w /\
  forall r,
    (env_model w <> Some r -> deref w' r = deref w r) /\
    (forall key, key <> "openvino.xml" ->
       model_adapters (deref w' r) !! key = model_adapters (deref w r) !! key) /\
    model_format (deref w' r) = model_format (deref w r) /\
    optimization_type (deref w' r) = optimization_type (deref w r) /\
    optimization_methods (deref w' r) = optimization_methods (deref w r) /\
    precision (deref w' r) = precision (deref w r) /\
    exportable_code (deref w' r) = exportable_code (deref w r).
Proof. apply get_openvino_model_preserves. Qed.

Lemma get_openvino_model_frame_witness :
  model_adapters
    (deref (snd (get_openvino_model Fixture.ext Fixture.task
                   (Fixture.world_of Fixture.legacy_model))) 0%nat) !! "openvino.bin" =
    model_adapters (deref (Fixture.world_of Fixture.legacy_model) 0%nat) !! "openvino.bin".
Proof.
  edestruct (get_openvino_model_frame Fixture.ext Fixture.task
               (Fixture.world_of Fixture.legacy_model)) as (_ & _ & _ & Hframe).
  - apply surjective_pairing.
  - destruct (Hframe 0%nat) as (_ & Hkeys & _). by apply Hkeys.
Defined.

Lemma create_model_RuntimeError E m msg :
  create_model E m = Raise (RuntimeError msg) ->
  exists xml bin,
    model_adapters m !! "openvino.xml" = Some xml /\
    model_adapters m !! "openvino.bin" = Some bin /\
    model_api_accepts E xml bin = false.
Proof.
  unfold create_model, get_data.
  destruct (model_adapters m !! "openvino.xml") as [xml|]; [|done].
  destruct (model_adapters m !! "openvino.bin") as [bin|]; [|done]. simpl.
  destruct (model_api_accepts E xml bin) eqn:Hacc; [done|]. by exists xml, bin.
Qed.

(** X11.  The migration of a legacy artifact.  When the model API refuses the
    stored IR with a RuntimeError, the IR-format metadata is embedded into the
    graph file and the model is created again from the rewritten artifact:
    the stored openvino.xml becomes what [embed_ir_model_data] returns for
    the old graph and the metadata, whose ndarray values have been turned
    into lists; nothing else in the store changes.  When the metadata cannot
    be resolved, its error is raised and nothing is written. *)
Theorem get_openvino_model_migrates E self w r msg :
  env_model w = Some r ->
  create_model E (deref w r) = Raise (RuntimeError msg) ->
  (forall e, _metadata_in_ir_format E self w = Raise e ->
             get_openvino_model E self w = (Raise e, w)) /\
  (forall extra,
     _metadata_in_ir_format E self w = Ok extra ->
     exists xml w',
       model_adapters (deref w r) !! "openvino.xml" = Some xml /\
       get_openvino_model E self w = (create_model E (deref w' r), w') /\
       model_adapters (deref w' r) =
         <["openvino.xml" :=
             embed_ir_model_data E xml (map (fun kv => (fst kv, tolist E (snd kv))) extra)]>
           (model_adapters (deref w r)) /\
       Forall (fun kv => is_ndarray (snd kv) = false)
              (map (fun kv => (fst kv, tolist E (snd kv))) extra)).
Proof.
  intros Hr Hcreate.
  destruct (create_model_RuntimeError _ _ _ Hcreate) as (xml & bin & Hxml & Hbin & _).
  split.
  - intros e He. unfold get_openvino_model, bind, gets. rewrite Hr, Hcreate.
    unfold _create_from_legacy, bind, reads. by rewrite He.
  - intros extra Hextra. exists xml. eexists. split; [done|].
    split; [|split].
    + unfold get_openvino_model, bind, gets. rewrite Hr, Hcreate.
      unfold _create_from_legacy, bind, reads, gets, modify, get_data.
      rewrite Hextra, Hr, Hxml, Hbin. reflexivity.
    + by apply migrated_store.
    + apply Forall_forall. intros kv Hkv.
      apply list_elem_of_fmap in Hkv as ([k v] & -> & _). by destruct v.
Qed.

Lemma get_openvino_model_migrates_witness :
  exists extra xml w',
    _metadata_in_ir_format LegacyFixture.legacy_ext Fixture.task
      (Fixture.world_of Fixture.legacy_model) = Ok extra /\
    model_adapters (deref (Fixture.world_of Fixture.legacy_model) 0%nat) !! "openvino.xml"
      = Some xml /\
    get_openvino_model LegacyFixture.legacy_ext Fixture.task (Fixture.world_of Fixture.legacy_model) =
      (create_model LegacyFixture.legacy_ext (deref w' 0%nat), w') /\
    model_adapters (deref w' 0%nat) =
      <["openvino.xml" :=
          embed_ir_model_data LegacyFixture.legacy_ext xml
            (map (fun kv => (fst kv, tolist LegacyFixture.legacy_ext (snd kv))) extra)]>
        (model_adapters (deref (Fixture.world_of Fixture.legacy_model) 0%nat)) /\
    Forall (fun kv => is_ndarray (snd kv) = false)
           (map (fun kv => (fst kv, tolist LegacyFixture.legacy_ext (snd kv))) extra).
Proof.
  destruct (get_openvino_model_migrates LegacyFixture.legacy_ext Fixture.task
              (Fixture.world_of Fixture.legacy_model) 0%nat "AnomalyDetection.create_model")
    as [_ Hmigrate]; [reflexivity | vm_compute; reflexivity |].
  eexists. edestruct Hmigrate as (xml & w' & H); [vm_compute; reflexivity|].
  exists xml, w'. split; [reflexivity | exact H].
Defined.

(** ** The stages of an optimization *)

Lemma add_events_nil w : add_events [] w = w.
Proof. unfold add_events. rewrite app_nil_r. by destruct w. Qed.

Lemma add_events_app a b w : add_events b (add_events a w) = add_events (a ++ b) w.
Proof. unfold add_events. simpl. by rewrite app_assoc. Qed.

Lemma emit_add_events e w : emit e w = add_events [e] w.
Proof. done. Qed.


Lemma get_metadata_stable E self w1 w2 :
  env_model w1 = env_model w2 ->
  (forall r key,
     env_model w1 = Some r -> key ∈ "metadata" :: legacy_keys ->
     model_adapters (deref w1 r) !! key = model_adapters (deref w2 r) !! key) ->
  get_metadata E self w1 = get_metadata E self w2.
Proof.
  intros Henv Hkeys. unfold get_metadata. rewrite <- Henv.
  destruct (env_model w1) as [r|]; [|done].
  assert (load_metadata E (deref w1 r) = load_metadata E (deref w2 r)) as ->.
  { unfold load_metadata, get_data. rewrite (Hkeys r "metadata"); [done|done|left]. }
  assert (_populate_metadata_legacy E self (deref w1 r) =
          _populate_metadata_legacy E self (deref w2 r)) as ->; [|done].
  unfold _populate_metadata_legacy, frombuffer_data, get_data.
  rewrite (Hkeys r "image_threshold"), (Hkeys r "pixel_threshold"),
    (Hkeys r "min"), (Hkeys r "max"); try done; decide_membership.
Qed.

Lemma quantized_artifact_lookup E self output_model compressed_model w r key :
  key ∉ ["openvino.xml"; "openvino.bin"; "label_schema.json"] ->
  model_adapters (deref (quantized_artifact E self output_model compressed_model w) r) !! key =
    model_adapters (deref w r) !! key.
Proof.
  intros Hkey. unfold quantized_artifact.
  destruct (decide (output_model = r)) as [->|Hne].
  - rewrite !deref_update_model_eq. simpl.
    rewrite !lookup_insert_ne; [done|..]; intros <-; apply Hkey; decide_membership.
  - by rewrite !deref_update_model_ne.
Qed.

Lemma get_metadata_quantized_artifact E self output_model compressed_model w :
  get_metadata E self (quantized_artifact E self output_model compressed_model w) =
    get_metadata E self w.
Proof.
  apply get_metadata_stable; [done|]. intros r key _ Hkey.
  apply quantized_artifact_lookup. intros Hin.
  unfold legacy_keys in Hkey.
  repeat (apply elem_of_cons in Hkey as [->|Hkey];
          [repeat (apply elem_of_cons in Hin as [Hin|Hin]; [done|]);
           by apply elem_of_nil in Hin|]).
  by apply elem_of_nil in Hkey.
Qed.

(** How [store_quantized] ends. *)
Lemma store_quantized_inv E self output_model compressed_model w res w' :
  store_quantized E self output_model compressed_model w = (res, w') ->
  (exists e, get_metadata E self w = Raise e /\ res = Raise e /\
             w' = quantized_artifact E self output_model compressed_model w) \/
  (exists metadata,
     get_metadata E self w = Ok metadata /\ json_dumps E metadata = None /\
     res = Raise TypeError /\
     w' = quantized_artifact E self output_model compressed_model w) \/
  (exists metadata text loaded w1,
     get_metadata E self w = Ok metadata /\ json_dumps E metadata = Some text /\
     get_openvino_model E self
       (set_env_model (Some output_model)
          (update_model output_model (set_data "metadata" (str_encode text))
             (quantized_artifact E self output_model compressed_model w))) = (loaded, w1) /\
     match loaded with
     | Ok inference_model => res = Ok tt /\ w' = set_inference_model inference_model w1
     | Raise e => res = Raise e /\ w' = w1
     end).
Proof.
  unfold store_quantized, bind, modify, reads, raise, ret.
  fold (quantized_artifact E self output_model compressed_model w).
  rewrite get_metadata_quantized_artifact.
  destruct (get_metadata E self w) as [metadata|e].
  2:{ intros [= <- <-]. left. by exists e. }
  destruct (json_dumps E metadata) as [text|] eqn:Htext.
  2:{ intros [= <- <-]. right. left. by exists metadata. }
  destruct (get_openvino_model E self _) as [[im|e] w1] eqn:Hload;
    intros [= <- <-]; right; right; exists metadata, text; eexists _, _; by repeat split.
Qed.

(** How [optimize] ends, stage by stage. *)
Lemma optimize_stages E self optimization_type input output_model optimization_parameters
    w res w' :
  optimize E self optimization_type input output_model optimization_parameters w = (res, w') ->
  (w' = w /\ res <> Ok tt) \/
  (w' = add_events (progress_events optimization_parameters 10) w /\ res <> Ok tt) \/
  exists calibration quantization_config ov_model,
    optimization_type = POT /\
    anomalous_items (items input) = Ok calibration /\
    read_weights E self w = (Ok ov_model, w) /\
    _get_optimization_algorithms_config E self = Ok quantization_config /\
    match nncf_quantize E ov_model
            (OTXNNCFAnomalyDataloader_init E
               {| items := calibration; purpose := purpose input |} (inference_model w) true)
            (with_subset_size
               (Z.min (subset_size quantization_config) (Z.of_nat (length calibration)))
               quantization_config) with
    | None =>
        res = Raise QuantizationError /\
        w' = add_events
               (progress_events optimization_parameters 10 ++
                [quantize_event E input calibration quantization_config w]) w
    | Some compressed_model =>
        exists stored w1,
          store_quantized E self output_model compressed_model
            (add_events
               (progress_events optimization_parameters 10 ++
                [quantize_event E input calibration quantization_config w] ++
                progress_events optimization_parameters 90) w) = (stored, w1) /\
          match stored with
          | Ok _ =>
              res = Ok tt /\
              w' = add_events (progress_events optimization_parameters 100) w1
          | Raise e => res = Raise e /\ w' = w1
          end
    end.
Proof.
  unfold optimize.
  destruct (decide (optimization_type = POT)) as [->|Hty].
  2:{ rewrite bool_decide_false by done. intros [= <- <-]. by left. }
  rewrite bool_decide_true by done. simpl.
  unfold bind at 1. unfold lift at 1.
  destruct (anomalous_items (items input)) as [calib|e] eqn:Hcalib.
  2:{ intros [= <- <-]. by left. }
  unfold bind at 1. unfold gets at 1.
  unfold bind at 1.
  destruct (read_weights E self w) as [[ov_model|e] w0] eqn:Hread;
    pose proof (read_weights_pure _ _ _ _ _ Hread) as ->.
  2:{ intros [= <- <-]. by left. }
  unfold bind at 1. rewrite update_progress_run.
  unfold bind at 1. unfold lift at 1.
  destruct (_get_optimization_algorithms_config E self) as [cfg|e] eqn:Hcfg.
  2:{ intros [= <- <-]. right. by left. }
  unfold bind at 1. unfold modify at 1.
  unfold bind at 1.
  change (emit _ _) with
    (emit (quantize_event E input calib cfg w)
          (add_events (progress_events optimization_parameters 10) w)).
  rewrite emit_add_events, add_events_app.
  intros Hrun. right. right. exists calib, cfg, ov_model.
  split; [done|]. split; [done|]. split; [done|]. split; [done|].
  change (OTXNNCFAnomalyDataloader_len _) with (Z.of_nat (length calib)) in Hrun.
  change (inference_model (add_events _ w)) with (inference_model w).
  destruct (nncf_quantize E ov_model _ _) as [compressed_model|]; unfold ret, raise in Hrun.
  2:{ by injection Hrun as <- <-. }
  unfold bind at 1 in Hrun. rewrite update_progress_run, add_events_app in Hrun.
  rewrite <- app_assoc in Hrun.
  unfold bind at 1 in Hrun.
  destruct (store_quantized E self output_model compressed_model _) as [[[]|e] w1] eqn:Hstore.
  - rewrite update_progress_run in Hrun. injection Hrun as <- <-.
    by eexists (Ok tt), w1.
  - injection Hrun as <- <-. by eexists (Raise e), w1.
Qed.

Lemma get_openvino_model_ok E self w inference_model w' :
  get_openvino_model E self w = (Ok inference_model, w') ->
  exists r, env_model w = Some r /\ create_model E (deref w' r) = Ok inference_model.
Proof.
  unfold get_openvino_model, bind, reads, gets, raise.
  destruct (env_model w) as [r|]; [|done].
  destruct (create_model E (deref w r)) as [im|e] eqn:Hcreate.
  { intros [= <- <-]. by exists r. }
  destruct e; try done.
  destruct (_create_from_legacy E self w) as [[[]|e] w1]; [|done].
  intros [= Hcreate' <-]. by exists r.
Qed.

(** What [store_quantized] leaves in the world, however it ends. *)
Lemma store_quantized_frame E self output_model compressed_model w res w' :
  store_quantized E self output_model compressed_model w = (res, w') ->
  (forall r, r <> output_model -> deref w' r = deref w r) /\
  model_format (deref w' output_model) = OPENVINO /\
  optimization_type (deref w' output_model) = MOT_POT /\
  optimization_methods (deref w' output_model) = [QUANTIZATION] /\
  precision (deref w' output_model) = [INT8] /\
  exportable_code (deref w' output_model) = exportable_code (deref w output_model) /\
  model_adapters (deref w' output_model) !! "openvino.bin" =
    Some (snd (save_model E compressed_model)) /\
  model_adapters (deref w' output_model) !! "label_schema.json" =
    Some (label_schema_to_bytes E (label_schema (task_environment self))) /\
  (res = Ok tt ->
   env_model w' = Some output_model /\
   (exists loaded,
      inference_model w' = Some loaded /\
      create_model E (deref w' output_model) = Ok loaded) /\
   exists metadata text,
     get_metadata E self w = Ok metadata /\ json_dumps E metadata = Some text /\
     model_adapters (deref w' output_model) !! "metadata" = Some (str_encode text)).
Proof.
  intros Hrun.
  assert (let a := quantized_artifact E self output_model compressed_model w in
          (forall r, r <> output_model -> deref a r = deref w r) /\
          model_format (deref a output_model) = OPENVINO /\
          optimization_type (deref a output_model) = MOT_POT /\
          optimization_methods (deref a output_model) = [QUANTIZATION] /\
          precision (deref a output_model) = [INT8] /\
          exportable_code (deref a output_model) = exportable_code (deref w output_model) /\
          model_adapters (deref a output_model) !! "openvino.bin" =
            Some (snd (save_model E compressed_model)) /\
          model_adapters (deref a output_model) !! "label_schema.json" =
            Some (label_schema_to_bytes E (label_schema (task_environment self)))) as Ha.
  { unfold quantized_artifact. split.
    - intros r Hne. by rewrite !deref_update_model_ne.
    - rewrite !deref_update_model_eq. simpl. repeat split; try done.
      + rewrite lookup_insert_ne by done. apply lookup_insert_eq.
      + apply lookup_insert_eq. }
  simpl in Ha. destruct Ha as (Ha1 & Ha2 & Ha3 & Ha4 & Ha5 & Ha6 & Ha7 & Ha8).
  apply store_quantized_inv in Hrun
    as [(e & _ & -> & ->)|[(md & _ & _ & -> & ->)|(md & text & loaded & w1 & Hmd & Htext & Hload & Hend)]].
  - by repeat split.
  - by repeat split.
  - pose proof (get_openvino_model_preserves _ _ _ _ _ Hload) as (Henv & _ & _ & Hframe).
    set (w6 := set_env_model (Some output_model)
                 (update_model output_model (set_data "metadata" (str_encode text))
                    (quantized_artifact E self output_model compressed_model w))) in *.
    assert (forall r, deref w6 r =
              deref (update_model output_model (set_data "metadata" (str_encode text))
                       (quantized_artifact E self output_model compressed_model w)) r)
      as Hw6 by done.
    assert (forall r, r <> output_model -> deref w1 r = deref w r) as Hother.
    { intros r Hne. destruct (Hframe r) as (Hr & _). rewrite Hr.
      - rewrite Hw6, deref_update_model_ne by done. by apply Ha1.
      - simpl. congruence. }
    destruct (Hframe output_model) as (_ & Hkeys & Hf1 & Hf2 & Hf3 & Hf4 & Hf5).
    rewrite Hw6, deref_update_model_eq in Hf1, Hf2, Hf3, Hf4, Hf5.
    simpl in Hf1, Hf2, Hf3, Hf4, Hf5.
    assert (forall key, key <> "openvino.xml" -> key <> "metadata" ->
              model_adapters (deref w1 output_model) !! key =
              model_adapters
                (deref (quantized_artifact E self output_model compressed_model w)
                       output_model) !! key) as Hstore.
    { intros key Hx Hm. rewrite Hkeys by done.
      rewrite Hw6, deref_update_model_eq. simpl. by rewrite lookup_insert_ne. }
    assert (model_adapters (deref w1 output_model) !! "metadata" = Some (str_encode text))
      as Hmeta.
    { rewrite Hkeys by done. rewrite Hw6, deref_update_model_eq. simpl.
      apply lookup_insert_eq. }
    assert (forall w2,
              (forall r, deref w2 r = deref w1 r) ->
              (forall r, r <> output_model -> deref w2 r = deref w r) /\
              model_format (deref w2 output_model) = OPENVINO /\
              optimization_type (deref w2 output_model) = MOT_POT /\
              optimization_methods (deref w2 output_model) = [QUANTIZATION] /\
              precision (deref w2 output_model) = [INT8] /\
              exportable_code (deref w2 output_model) = exportable_code (deref w output_model) /\
              model_adapters (deref w2 output_model) !! "openvino.bin" =
                Some (snd (save_model E compressed_model)) /\
              model_adapters (deref w2 output_model) !! "label_schema.json" =
                Some (label_schema_to_bytes E (label_schema (task_environment self))))
      as Hcommon.
    { intros w2 Hw2. split; [intros r Hne; rewrite Hw2; by apply Hother|].
      rewrite !Hw2, Hf1, Hf2, Hf3, Hf4, Hf5, !Hstore by done.
      rewrite Ha2, Ha3, Ha4, Ha5, Ha6, Ha7, Ha8. done. }
    destruct loaded as [im|e].
    + destruct Hend as [-> ->].
      destruct (Hcommon (set_inference_model im w1)) as (?&?&?&?&?&?&?&?); [done|].
      repeat split; try done.
      * exists im. split; [done|].
        apply get_openvino_model_ok in Hload as (r & [= <-] & Hcreate). exact Hcreate.
      * by exists md, text.
    + destruct Hend as [-> ->].
      destruct (Hcommon w1) as (?&?&?&?&?&?&?&?); [done|].
      by repeat split.
Qed.

Lemma get_metadata_add_events E self new w :
  get_metadata E self (add_events new w) = get_metadata E self w.
Proof. by apply get_metadata_stable. Qed.

(** X12.  After a successful [optimize], the task's model is [output_model];
    it is stamped as an OpenVINO model optimized by POT, with quantization as
    its method and INT8 as its precision; it stores the label schema; and the
    inference model in use is the one the model API creates from the IR now
    stored in it. *)
Theorem optimize_success_state E self requested input output_model
    optimization_parameters w w' :
  optimize E self requested input output_model optimization_parameters w = (Ok tt, w') ->
  env_model w' = Some output_model /\
  model_format (deref w' output_model) = OPENVINO /\
  optimization_type (deref w' output_model) = MOT_POT /\
  optimization_methods (deref w' output_model) = [QUANTIZATION] /\
  precision (deref w' output_model) = [INT8] /\
  model_adapters (deref w' output_model) !! "label_schema.json" =
    Some (label_schema_to_bytes E (label_schema (task_environment self))) /\
  exists loaded,
    inference_model w' = Some loaded /\
    create_model E (deref w' output_model) = Ok loaded.
Proof.
  intros Hrun. apply optimize_stages in Hrun as [[_ ?]|[[_ ?]|Hrun]]; try done.
  destruct Hrun as (calib & cfg & ov & _ & _ & _ & _ & Hrun).
  destruct (nncf_quantize E ov _ _) as [cm|]; [|by destruct Hrun].
  destruct Hrun as ([[]|e] & w1 & Hstore & Hend); [|by destruct Hend].
  destruct Hend as [_ ->].
  apply store_quantized_frame in Hstore
    as (_ & ? & ? & ? & ? & _ & _ & ? & Hok).
  destruct (Hok eq_refl) as (? & (loaded & ? & ?) & _).
  repeat split; try done. by exists loaded.
Qed.

Lemma optimize_success_state_witness :
  env_model (snd (optimize Fixture.ext Fixture.task POT Fixture.samples 1%nat None
                    (Fixture.world_of Fixture.current_model))) = Some 1%nat.
Proof.
  eapply (optimize_success_state Fixture.ext Fixture.task POT Fixture.samples 1%nat None
            (Fixture.world_of Fixture.current_model)).
  vm_compute. reflexivity.
Defined.

(** X13.  The quantized artifact carries the metadata of the model it was
    made from: after a successful [optimize], the blob under "metadata" in
    [output_model] is the encoded JSON text of what [get_metadata] returned
    for the task's model at the start. *)
Theorem optimize_carries_metadata E self optimization_type input output_model
    optimization_parameters w w' :
  optimize E self optimization_type input output_model optimization_parameters w = (Ok tt, w') ->
  exists metadata text,
    get_metadata E self w = Ok metadata /\
    json_dumps E metadata = Some text /\
    model_adapters (deref w' output_model) !! "metadata" = Some (str_encode text).
Proof.
  intros Hrun. apply optimize_stages in Hrun as [[_ ?]|[[_ ?]|Hrun]]; try done.
  destruct Hrun as (calib & cfg & ov & _ & _ & _ & _ & Hrun).
  destruct (nncf_quantize E ov _ _) as [cm|]; [|by destruct Hrun].
  destruct Hrun as ([[]|e] & w1 & Hstore & Hend); [|by destruct Hend].
  destruct Hend as [_ ->].
  apply store_quantized_frame in Hstore as (_ & _ & _ & _ & _ & _ & _ & _ & Hok).
  destruct (Hok eq_refl) as (_ & _ & metadata & text & Hmd & ? & ?).
  rewrite get_metadata_add_events in Hmd. by exists metadata, text.
Qed.

Lemma optimize_carries_metadata_witness :
  exists metadata text,
    get_metadata Fixture.ext Fixture.task (Fixture.world_of Fixture.current_model)
      = Ok metadata /\
    json_dumps Fixture.ext metadata = Some text /\
    model_adapters
      (deref (snd (optimize Fixture.ext Fixture.task POT Fixture.samples 1%nat None
                     (Fixture.world_of Fixture.current_model))) 1%nat) !! "metadata"
      = Some (str_encode text).
Proof.
  eapply (optimize_carries_metadata Fixture.ext Fixture.task POT Fixture.samples 1%nat None
            (Fixture.world_of Fixture.current_model)).
  vm_compute. reflexivity.
Defined.

(** X14.  [optimize] writes to [output_model] only: however the call ends,
    every other artifact is as it was, and [output_model.exportable_code] is
    not touched. *)
Theorem optimize_frame E self optimization_type input output_model optimization_parameters
    w res w' :
  optimize E self optimization_type input output_model optimization_parameters w = (res, w') ->
  (forall r, r <> output_model -> deref w' r = deref w r) /\
  exportable_code (deref w' output_model) = exportable_code (deref w output_model).
Proof.
  intros Hrun. apply optimize_stages in Hrun as [[-> _]|[[-> _]|Hrun]]; try done.
  destruct Hrun as (calib & cfg & ov & _ & _ & _ & _ & Hrun).
  destruct (nncf_quantize E ov _ _) as [cm|]; [|by destruct Hrun as [_ ->]].
  destruct Hrun as (stored & w1 & Hstore & Hend).
  apply store_quantized_frame in Hstore as (Hother & _ & _ & _ & _ & Hcode & _).
  destruct stored as [[]|e]; destruct Hend as [_ ->]; by split.
Qed.

Lemma optimize_frame_witness :
  deref (snd (optimize Fixture.ext Fixture.task POT Fixture.samples 1%nat None
                (Fixture.world_of Fixture.current_model))) 0%nat =
    deref (Fixture.world_of Fixture.current_model) 0%nat.
Proof.
  edestruct (optimize_frame Fixture.ext Fixture.task POT Fixture.samples 1%nat None
               (Fixture.world_of Fixture.current_model)) as [Hother _].
  - apply surjective_pairing.
  - by apply Hother.
Defined.

(** X15.  In every call of [optimize], failing or not, the progress callback
    sees an initial segment of 10, 90, 100, and it is never called without
    optimization parameters. *)
Theorem optimize_progress_prefix E self optimization_type input output_model
    optimization_parameters w res w' :
  optimize E self optimization_type input output_model optimization_parameters w = (res, w') ->
  exists new,
    events w' = (events w ++ new)%list /\
    progress_values new `prefix_of` [10; 90; 100] /\
    (optimization_parameters = None -> progress_values new = []).
Proof.
  intros Hrun.
  destruct (optimize_trace _ _ _ _ _ _ _ _ _ Hrun) as (new & Hevents & Htrace).
  exists new. split; [done|].
  destruct optimization_parameters as [p|]; inversion Htrace; subst; simpl.
  all: split; [|done].
  all: try (by eexists).
  all: by exists [10; 90; 100].
Qed.

Lemma optimize_progress_prefix_witness :
  exists new,
    events (snd (optimize Fixture.ext Fixture.task POT Fixture.samples 1%nat
                   (Some OptimizationParameters_default)
                   (Fixture.world_of Fixture.legacy_model))) =
      (events (Fixture.world_of Fixture.legacy_model) ++ new)%list /\
    progress_values new `prefix_of` [10; 90; 100] /\
    (Some OptimizationParameters_default = None -> progress_values new = []).
Proof.
  eapply (optimize_progress_prefix Fixture.ext Fixture.task POT Fixture.samples 1%nat
            (Some OptimizationParameters_default) (Fixture.world_of Fixture.legacy_model)).
  apply surjective_pairing.
Defined.

Lemma anomalous_items_IndexError l :
  (exists item, item ∈ l /\ get_shapes_labels item = []) ->
  anomalous_items l = Raise IndexError.
Proof.
  intros (item & Hin & Hitem). induction l as [|x l IH]; [by apply elem_of_nil in Hin|].
  simpl. destruct (get_shapes_labels x) as [|label labels] eqn:Hx; [done|].
  apply elem_of_cons in Hin as [->|Hin]; [congruence|]. by rewrite IH.
Qed.

(** X16.  The first two precondition failures of a POT optimization.  An item
    without any shape label makes the dataset filter raise IndexError; with
    every item labelled but no model attached, the ValueError of the weight
    export is raised.  In both cases nothing has been written and no callback
    has been called. *)
Theorem optimize_precondition_failures E self input output_model optimization_parameters w :
  ((exists item, item ∈ items input /\ get_shapes_labels item = []) ->
   optimize E self POT input output_model optimization_parameters w =
     (Raise IndexError, w)) /\
  ((forall item, item ∈ items input -> get_shapes_labels item <> []) ->
   env_model w = None ->
   optimize E self POT input output_model optimization_parameters w =
     (Raise (ValueError "Cannot save the weights. self.task_environment.model is None."), w)).
Proof.
  split.
  - intros Hitem. unfold optimize, bind, lift. simpl.
    by rewrite (anomalous_items_IndexError _ Hitem).
  - intros Hlabelled Hr. unfold optimize, read_weights, bind, lift, gets, raise. simpl.
    by rewrite (anomalous_items_total _ Hlabelled), Hr.
Qed.

Lemma optimize_precondition_failures_witness :
  optimize Fixture.ext Fixture.task POT
    {| items := [Fixture.item 0 [Fixture.anomalous]; Fixture.item 1 []]; purpose := TRAINING |}
    1%nat None (Fixture.world_of Fixture.current_model) =
    (Raise IndexError, Fixture.world_of Fixture.current_model).
Proof.
  apply (optimize_precondition_failures Fixture.ext Fixture.task).
  exists (Fixture.item 1 []). split; [|reflexivity]. simpl. right. left.
Defined.

(** X17.  [optimize] is not all or nothing.  Once [nncf.quantize] has
    returned, [output_model] holds the weights of the compressed model, the
    label schema and the four stamps, whether the rest of the call succeeds
    or raises (the JSON dump of the metadata, the reload of the inference
    model). *)
Theorem optimize_writes_before_failing E self input output_model optimization_parameters
    w calibration quantization_config ov_model compressed_model res w' :
  anomalous_items (items input) = Ok calibration ->
  read_weights E self w = (Ok ov_model, w) ->
  _get_optimization_algorithms_config E self = Ok quantization_config ->
  nncf_quantize E ov_model
    (OTXNNCFAnomalyDataloader_init E {| items := calibration; purpose := purpose input |}
                                   (inference_model w) true)
    (with_subset_size
       (Z.min (subset_size quantization_config) (Z.of_nat (length calibration)))
       quantization_config) = Some compressed_model ->
  optimize E self POT input output_model optimization_parameters w = (res, w') ->
  model_adapters (deref w' output_model) !! "openvino.bin" =
    Some (snd (save_model E compressed_model)) /\
  model_adapters (deref w' output_model) !! "label_schema.json" =
    Some (label_schema_to_bytes E (label_schema (task_environment self))) /\
  model_format (deref w' output_model) = OPENVINO /\
  optimization_type (deref w' output_model) = MOT_POT /\
  optimization_methods (deref w' output_model) = [QUANTIZATION] /\
  precision (deref w' output_model) = [INT8].
Proof.
  intros Hcalib Hread Hcfg Hq Hrun.
  unfold optimize in Hrun. simpl in Hrun.
  unfold bind at 1 in Hrun. unfold lift at 1 in Hrun. rewrite Hcalib in Hrun.
  unfold bind at 1 in Hrun. unfold gets at 1 in Hrun.
  unfold bind at 1 in Hrun. rewrite Hread in Hrun.
  unfold bind at 1 in Hrun. rewrite update_progress_run in Hrun.
  unfold bind at 1 in Hrun. unfold lift at 1 in Hrun. rewrite Hcfg in Hrun.
  unfold bind at 1 in Hrun. unfold modify at 1 in Hrun.
  unfold bind at 1 in Hrun.
  change (OTXNNCFAnomalyDataloader_len _) with (Z.of_nat (length calibration)) in Hrun.
  change (inference_model (add_events _ w)) with (inference_model w) in Hrun.
  rewrite Hq in Hrun. unfold ret in Hrun.
  unfold bind at 1 in Hrun. rewrite update_progress_run in Hrun.
  unfold bind at 1 in Hrun.
  destruct (store_quantized E self output_model compressed_model _) as [stored w1] eqn:Hstore.
  apply store_quantized_frame in Hstore as (_ & ? & ? & ? & ? & _ & ? & ? & _).
  destruct stored as [[]|e].
  - rewrite update_progress_run in Hrun. injection Hrun as _ <-. by repeat split.
  - injection Hrun as _ <-. by repeat split.
Qed.

Lemma optimize_writes_before_failing_witness :
  fst (optimize Fixture.ext Fixture.task POT Fixture.samples 1%nat None
         (Fixture.world_of Fixture.legacy_model)) = Raise TypeError /\
  model_format
    (deref (snd (optimize Fixture.ext Fixture.task POT Fixture.samples 1%nat None
                   (Fixture.world_of Fixture.legacy_model))) 1%nat) = OPENVINO.
Proof.
  split; [vm_compute; reflexivity|].
  eapply (optimize_writes_before_failing Fixture.ext Fixture.task Fixture.samples 1%nat None
            (Fixture.world_of Fixture.legacy_model)).
  - vm_compute. reflexivity.
  - vm_compute. reflexivity.
  - vm_compute. reflexivity.
  - vm_compute. reflexivity.
  - apply surjective_pairing.
Defined.

(** ** The calibration data loader *)






(** ** Inference *)

Lemma infer_item_labelled I self inference_model dataset_item updated :
  infer_item I self inference_model dataset_item = Ok updated ->
  labelled_by self dataset_item updated.
Proof.
  unfold infer_item, labelled_by. intros H.
  destruct inference_model as [m|]; [|done]. simpl in H.
  set (image_result := predict I m (numpy dataset_item)) in *.
  assert (forall create labelled,
            label_from_annotations create self image_result dataset_item = Ok labelled ->
            exists added,
              fst labelled = append_annotations added dataset_item /\
              (Some (snd labelled) = normal_label self \/
               Some (snd labelled) = anomalous_label self) /\
              (added = [] -> Some (snd labelled) = normal_label self) /\
              (added <> [] -> Some (snd labelled) = anomalous_label self)) as Hshapes.
  { intros create labelled Hl. unfold label_from_annotations in Hl.
    destruct (normal_label self) as [normal|]; [|done].
    destruct (anomalous_label self) as [anomalous|]; [|done]. simpl in Hl.
    injection Hl as <-. eexists. split; [reflexivity|]. simpl.
    destruct (decide (length _ = 0%nat)) as [Hlen|Hlen].
    - split; [by left|]. split; [done|]. intros Hne.
      by apply length_zero_iff_nil in Hlen.
    - split; [by right|]. split; [|done]. intros Hnil. by rewrite Hnil in Hlen. }
  match type of H with
  | rbind ?c _ = _ => destruct c as [[item1 label]|] eqn:Hlabelled; [|done]
  end.
  simpl in H. injection H as <-.
  destruct (task_type self) eqn:Htype.
  - exists label. eexists _, (anomaly_map image_result), [].
    assert (item1 = dataset_item /\
            (Some label = normal_label self \/ Some label = anomalous_label self))
      as [-> Hlabel].
    { destruct (PrimFloat.leb _ _).
      - destruct (anomalous_label self); [|done]. simpl in Hlabelled.
        injection Hlabelled as <- <-. split; [done | by right].
      - destruct (normal_label self); [|done]. simpl in Hlabelled.
        injection Hlabelled as <- <-. split; [done | by left]. }
    simpl. rewrite app_nil_r. by repeat split.
  - apply Hshapes in Hlabelled as (added & Hitem & ? & ? & ?). simpl in *. subst item1.
    exists label. eexists _, (anomaly_map image_result), added. by repeat split.
  - apply Hshapes in Hlabelled as (added & Hitem & ? & ? & ?). simpl in *. subst item1.
    exists label. eexists _, (anomaly_map image_result), added. by repeat split.
  - done.
Qed.

Lemma infer_loop_prefix I self inference_model inference_parameters total dataset idx :
  let run := infer_loop I self inference_model inference_parameters total idx dataset in
  exists processed,
    dataset_after run = (processed ++ drop (length processed) dataset)%list /\
    Forall2 (labelled_by self) (take (length processed) dataset) processed /\
    (outcome run = Ok tt -> length processed = length dataset) /\
    (length (progress run) <= length processed)%nat /\
    (outcome run = Ok tt ->
     length (progress run) =
       match inference_parameters with Some _ => length dataset | None => 0%nat end).
Proof.
  revert idx. induction dataset as [|item rest IH]; intros idx; simpl.
  - exists []. simpl. repeat split; try done. by destruct inference_parameters.
  - destruct (infer_item I self inference_model item) as [updated|e] eqn:Hitem.
    2:{ exists []. simpl. by repeat split. }
    apply infer_item_labelled in Hitem.
    destruct (progress_percent idx total) as [percent|e].
    2:{ exists [updated]. simpl. rewrite drop_0. repeat split; try done; try lia.
        by repeat constructor. }
    destruct (IH (S idx)) as (processed & Hafter & Hall & Hlen & Hprog & Hcount).
    exists (updated :: processed). simpl. rewrite Hafter at 1.
    repeat split; try done.
    + by constructor.
    + intros Hok. by rewrite Hlen.
    + destruct inference_parameters; simpl; lia.
    + intros Hok. specialize (Hcount Hok). destruct inference_parameters; simpl in *; lia.
Qed.



(** X20.  What [infer] and [evaluate] refuse.  Without an attached model
    [infer] raises before looking at the dataset.  With a task type that is
    none of the three anomaly tasks, [evaluate] raises the ValueError, and so
    does [infer] at the first item, leaving the dataset untouched and the
    callback uncalled; on an empty dataset [infer] returns all the same. *)
Theorem infer_and_evaluate_refusals I self dataset inference_parameters w :
  (env_model w = None ->
   infer I self dataset inference_parameters w =
     {| outcome :=
          Raise (Exception_ "task_environment.model is None. Cannot access threshold to calculate labels.");
        dataset_after := dataset; progress := [] |}) /\
  (forall name r loaded,
     task_type self = OTHER_TASK name ->
     env_model w = Some r ->
     inference_model w = Some loaded ->
     (forall output_resultset,
        evaluate I self output_resultset =
          Raise (ValueError ("Unknown task type: " ++ name))) /\
     (dataset = [] ->
      outcome (infer I self dataset inference_parameters w) = Ok tt) /\
     (dataset <> [] ->
      infer I self dataset inference_parameters w =
        {| outcome := Raise (ValueError ("Unknown task type: " ++ name));
           dataset_after := dataset; progress := [] |})).
Proof.
  split.
  - intros Hr. unfold infer. by rewrite Hr.
  - intros name r loaded Htype Hr Hloaded. split; [|split].
    + intros rs. unfold evaluate. by rewrite Htype.
    + intros ->. unfold infer. by rewrite Hr.
    + intros Hne. unfold infer. rewrite Hr, Hloaded.
      destruct dataset as [|item rest]; [done|]. simpl.
      unfold infer_item. simpl. by rewrite Htype.
Qed.

Lemma infer_and_evaluate_refusals_witness :
  infer InferenceFixture.inference_ext InferenceFixture.unknown_task InferenceFixture.images None
        InferenceFixture.loaded =
    {| outcome := Raise (ValueError "Unknown task type: CLASSIFICATION");
       dataset_after := InferenceFixture.images; progress := [] |}.
Proof.
  edestruct (infer_and_evaluate_refusals InferenceFixture.inference_ext InferenceFixture.unknown_task
               InferenceFixture.images None InferenceFixture.loaded) as [_ Hunknown].
  edestruct Hunknown as (_ & _ & Hraise); [reflexivity | reflexivity | reflexivity |].
  by apply Hraise.
Defined.

Lemma infer_loop_progress I self inference_model parameters total dataset idx :
  outcome (infer_loop I self inference_model (Some parameters) total idx dataset) = Ok tt ->
  result_map (fun idx => progress_percent idx total) (seq idx (length dataset)) =
    Ok (progress (infer_loop I self inference_model (Some parameters) total idx dataset)).
Proof.
  revert idx. induction dataset as [|item rest IH]; intros idx; simpl; [done|].
  destruct (infer_item I self inference_model item) as [updated|]; [|done].
  destruct (progress_percent idx total) as [percent|]; [|done]. simpl.
  intros Hok. by rewrite (IH _ Hok).
Qed.

Lemma nondecreasing_sorted l : nondecreasing l = true -> StronglySorted Z.le l.
Proof.
  intros H. apply Sorted_StronglySorted; [intros x y z; lia|].
  induction l as [|x l IH]; [constructor|].
  simpl in H. destruct l as [|y l]; [by repeat constructor|].
  apply andb_true_iff in H as [Hxy Hl].
  constructor; [by apply IH|]. constructor. lia.
Qed.

Lemma progress_checked_up_to_512 : forallb progress_checked (seq 0 513) = true.
Proof. vm_compute. reflexivity. Qed.

(** X21.  The percentages that [infer] reports, computed in floating point as
    [int((idx + 1) / len(dataset) * 100)], never decrease and end at 100, for
    every dataset of at most 512 items. *)
Theorem infer_progress_reaches_100 I self dataset parameters w :
  (length dataset <= 512)%nat ->
  outcome (infer I self dataset (Some parameters) w) = Ok tt ->
  StronglySorted Z.le (progress (infer I self dataset (Some parameters) w)) /\
  (dataset <> [] -> last (progress (infer I self dataset (Some parameters) w)) = Some 100).
Proof.
  intros Hsize Hok.
  assert (progress_checked (length dataset) = true) as Hchecked.
  { pose proof progress_checked_up_to_512 as Hall.
    rewrite forallb_forall in Hall. apply Hall. apply in_seq. lia. }
  unfold infer in *. destruct (env_model w); [|done].
  apply infer_loop_progress in Hok as Hprogress.
  unfold progress_checked in Hchecked. rewrite Hprogress in Hchecked.
  apply andb_true_iff in Hchecked as [Hsorted Hlast].
  split; [by apply nondecreasing_sorted|].
  intros Hne.
  destruct (infer_loop_prefix I self (inference_model w) (Some parameters)
              (length dataset) dataset 0) as (_ & _ & _ & _ & _ & Hcount).
  specialize (Hcount Hok).
  destruct (last (progress _)) as [percent|] eqn:Hl.
  - f_equal. lia.
  - apply last_None in Hl. rewrite Hl in Hcount. simpl in Hcount.
    destruct dataset; [done | simpl in Hcount; lia].
Qed.

Lemma infer_progress_reaches_100_witness :
  progress (infer InferenceFixture.inference_ext InferenceFixture.segmentation_task
                  InferenceFixture.images (Some InferenceParameters_default)
                  InferenceFixture.loaded) = [33; 66; 100] /\
  StronglySorted Z.le
    (progress (infer InferenceFixture.inference_ext InferenceFixture.segmentation_task
                     InferenceFixture.images (Some InferenceParameters_default)
                     InferenceFixture.loaded)).
Proof.
  split; [vm_compute; reflexivity|].
  apply (infer_progress_reaches_100 InferenceFixture.inference_ext InferenceFixture.segmentation_task
           InferenceFixture.images InferenceParameters_default InferenceFixture.loaded).
  - simpl. lia.
  - vm_compute. reflexivity.
Defined.

(** ** Construction and composition *)

(** X22.  What [__init__] establishes besides the labels.  Without an
    attached model it raises before anything else.  When it returns, the task
    has the template's task type and its base directory, and the inference
    model in use is the one the model API creates from the IR stored in the
    task's model (after the migration, if one was needed). *)
Theorem init_loads_inference_model E task_environment w :
  (env_model w = None ->
   __init__ E task_environment w =
     (Raise (Exception_ "task_environment.model is None. Cannot load weights."), w)) /\
  (forall self w',
     __init__ E task_environment w = (Ok self, w') ->
     task_type self = template_task_type task_environment /\
     config self = get_config E task_environment /\
     _base_dir self =
       Some (os_path_abspath_dirname E (model_template_path task_environment)) /\
     exists r loaded,
       env_model w = Some r /\ env_model w' = Some r /\
       inference_model w' = Some loaded /\
       create_model E (deref w' r) = Ok loaded).
Proof.
  split.
  - intros Hr. unfold __init__, get_openvino_model, bind, gets, raise. by rewrite Hr.
  - intros self w'. unfold __init__, bind, modify, lift, ret.
    destruct (get_openvino_model E (before_labels E task_environment) w)
      as [[loaded|e] w1] eqn:Hload; [|done].
    destruct (first_label _ _) as [normal|]; [|done].
    destruct (first_label (fun label => is_anomalous label) _) as [anomalous|]; [|done].
    intros [= <- <-]. simpl. repeat split.
    pose proof (get_openvino_model_preserves _ _ _ _ _ Hload) as (Henv & _).
    apply get_openvino_model_ok in Hload as (r & Hr & Hcreate).
    exists r, loaded. rewrite Henv. by repeat split.
Qed.

Lemma init_loads_inference_model_witness :
  __init__ Fixture.ext Fixture.environment Fixture.no_model =
    (Raise (Exception_ "task_environment.model is None. Cannot load weights."),
     Fixture.no_model).
Proof.
  apply (init_loads_inference_model Fixture.ext Fixture.environment Fixture.no_model).
  reflexivity.
Defined.



